(** * parseswe: a generator of per-job shell scripts

    A shallow embedding of [src/script/parseswe.py].  The program turns a
    list of benchmark instance identifiers into one isolation script per
    identifier and one aggregate [run_all.sh].

    Layout of the development:
    - Python values: exceptions, [str.format], [os.path.join], list indexing;
    - the process state: files, directories, standard output;
    - the program: [compute_jobs], [create_scripts], [create_top_script],
      [main];
    - the properties.

    Modelling boundary.  Strings are sequences of bytes, the UTF-8 of the
    text.  The file system is a finite map from path strings to files and
    a set of path strings that name directories: a path is known by its
    spelling, and two spellings of one place ([a/b] and [a//b], links) are
    two paths.  [os.makedirs] makes the directory and its missing parents;
    opening a file for writing fails when its directory is missing.  The
    other failures of the operating system are outside the model:
    permissions, a full disk, a file in the place of a directory or a
    directory in the place of a file, and the empty path as a directory to
    make (an empty output directory with an empty identifier).
    [str.format] is modelled down to the object it finds for a field: the
    grammar of templates, the lookup of names and the order in which errors
    arise are spelled out, and what Python does with the object (attribute
    and item access, conversions, format specifications) and the table of
    decimal digits of Unicode are a parameter, [PyObjects].  The module
    [dzyswe] is imported by the program but is not part of it: its catalog
    and its two functions are a parameter too, [Dzyswe]. *)

From Stdlib Require Import ZArith Ascii String List.
From stdpp Require Import base option list strings gmap.

Local Open Scope list_scope.
Local Open Scope Z_scope.

#[local] Arguments String.append !s1 s2 : simpl nomatch.

(** ** Exceptions *)

Inductive exn : Type :=
| KeyError (key : string)
| IndexError
| ValueError
| FileNotFoundError (path : string)
| OtherError (name : string).

Inductive result (A : Type) : Type :=
| Ok (a : A)
| Err (e : exn).

Arguments Ok {A} a.
Arguments Err {A} e.

#[global] Instance result_ret : MRet result := fun A a => Ok a.

#[global] Instance result_bind : MBind result := fun A B k r =>
  match r with
  | Ok a => k a
  | Err e => Err e
  end.

(** Python's [d[k]] on a dict with string keys. *)
Definition getitem {V} (d : gmap string V) (k : string) : result V :=
  match d !! k with
  | Some v => Ok v
  | None => Err (KeyError k)
  end.

(** Python's [d.get(k, default)]. *)
Definition dict_get {V} (d : gmap string V) (k : string) (default : V) : V :=
  match d !! k with
  | Some v => v
  | None => default
  end.

(** ** Strings *)

Definition snoc (s : string) (c : ascii) : string := s +:+ String c "".

Definition nl : string := String "010" "".

Definition startswith_sep (s : string) : bool :=
  match s with
  | String c _ => Ascii.eqb c "/"
  | EmptyString => false
  end.

Fixpoint endswith_sep (s : string) : bool :=
  match s with
  | EmptyString => false
  | String c EmptyString => Ascii.eqb c "/"
  | String _ s' => endswith_sep s'
  end.

(** [os.path.join(a, b)] of posixpath: an absolute [b] replaces [a]; an
    empty [a] or one that ends in a separator takes [b] as it is. *)
Definition path_join (a b : string) : string :=
  if startswith_sep b then b
  else if (String.eqb a "" || endswith_sep a)%bool then a +:+ b
  else a +:+ "/" +:+ b.

(** [s.rstrip("/")] *)
Fixpoint rstrip_sep (s : string) : string :=
  match s with
  | EmptyString => ""
  | String c s' =>
      match rstrip_sep s' with
      | EmptyString => if Ascii.eqb c "/" then "" else String c ""
      | stripped => String c stripped
      end
  end.

(** [(p[:i], p[i:])] for [i = p.rfind("/") + 1]. *)
Fixpoint rsplit_sep (p : string) : string * string :=
  match p with
  | EmptyString => ("", "")
  | String c p' =>
      let '(head, tail) := rsplit_sep p' in
      match head with
      | EmptyString =>
          if Ascii.eqb c "/" then (String c "", tail) else ("", String c tail)
      | _ => (String c head, tail)
      end
  end.

(** [os.path.dirname(p)] of posixpath: the part before the last separator,
    without its trailing separators unless it is made of separators only. *)
Definition dirname (p : string) : string :=
  let head := (rsplit_sep p).1 in
  match rstrip_sep head with
  | EmptyString => head
  | stripped => stripped
  end.

(** The directories [os.makedirs(path)] makes sure of: the path without
    its trailing separators and every leading part of it that ends before
    a separator, so [a], [a/b] and [a/b/c] for [a/b/c/].  The walk goes
    from left to right with the part read so far. *)
Fixpoint leading_dirs (prefix path : string) : list string :=
  match path with
  | EmptyString =>
      if (String.eqb prefix "" || endswith_sep prefix)%bool then []
      else [prefix]
  | String c path' =>
      (if (Ascii.eqb c "/" && negb (String.eqb prefix "")
           && negb (endswith_sep prefix))%bool
       then [prefix] else [])
      ++ leading_dirs (prefix +:+ String c "") path'
  end.


(** A path component that [os.path.join] appends after a separator: not
    empty, and with no separator at either end. *)
Definition plain_component (s : string) : bool :=
  (negb (String.eqb s "") && negb (startswith_sep s)
   && negb (endswith_sep s))%bool.

(** ** Code points

    Texts are kept as their bytes in UTF-8; the interpreter reads them
    code point by code point. *)

(** The code points of a text in UTF-8, as the interpreter decodes the
    command line: a byte that is not part of a well-formed sequence stands
    for itself, escaped as the code point U+DC00 plus the byte. *)
Definition byte (c : ascii) : Z := Z.of_nat (nat_of_ascii c).

Definition continuation (b : Z) : bool := ((128 <=? b) && (b <? 192))%bool.

Fixpoint code_points (s : string) : list Z :=
  match s with
  | EmptyString => []
  | String c0 s1 =>
      let b0 := byte c0 in
      let escaped := (56320 + b0) :: code_points s1 in
      if b0 <? 128 then b0 :: code_points s1
      else
        match s1 with
        | String c1 s2 =>
            let b1 := byte c1 in
            let cp2 := (b0 - 192) * 64 + (b1 - 128) in
            if ((192 <=? b0) && (b0 <? 224))%bool then
              if (continuation b1 && (128 <=? cp2))%bool
              then cp2 :: code_points s2
              else escaped
            else
              match s2 with
              | String c2 s3 =>
                  let b2 := byte c2 in
                  let cp3 := (b0 - 224) * 4096 + (b1 - 128) * 64
                             + (b2 - 128) in
                  if ((224 <=? b0) && (b0 <? 240))%bool then
                    if (continuation b1 && continuation b2 && (2048 <=? cp3)
                        && negb ((55296 <=? cp3) && (cp3 <=? 57343)))%bool
                    then cp3 :: code_points s3
                    else escaped
                  else
                    match s3 with
                    | String c3 s4 =>
                        let b3 := byte c3 in
                        let cp4 := (b0 - 240) * 262144 + (b1 - 128) * 4096
                                   + (b2 - 128) * 64 + (b3 - 128) in
                        if ((240 <=? b0) && (b0 <? 248) && continuation b1
                            && continuation b2 && continuation b3
                            && (65536 <=? cp4) && (cp4 <=? 1114111))%bool
                        then cp4 :: code_points s4
                        else escaped
                    | EmptyString => escaped
                    end
              | EmptyString => escaped
              end
        | EmptyString => escaped
        end
  end.

(** The bytes that the first code point of a text takes, for the text
    that starts with [c0] and goes on with [rest]. *)
Definition code_point_width (c0 : ascii) (rest : string) : nat :=
  let b0 := byte c0 in
  if b0 <? 192 then 1%nat
  else
    match rest with
    | String c1 s2 =>
        let b1 := byte c1 in
        let cp2 := (b0 - 192) * 64 + (b1 - 128) in
        if b0 <? 224 then
          if (continuation b1 && (128 <=? cp2))%bool then 2%nat else 1%nat
        else
          match s2 with
          | String c2 s3 =>
              let b2 := byte c2 in
              let cp3 := (b0 - 224) * 4096 + (b1 - 128) * 64 + (b2 - 128) in
              if b0 <? 240 then
                if (continuation b1 && continuation b2 && (2048 <=? cp3)
                    && negb ((55296 <=? cp3) && (cp3 <=? 57343)))%bool
                then 3%nat else 1%nat
              else
                match s3 with
                | String c3 _ =>
                    let b3 := byte c3 in
                    let cp4 := (b0 - 240) * 262144 + (b1 - 128) * 4096
                               + (b2 - 128) * 64 + (b3 - 128) in
                    if ((b0 <? 248) && continuation b1 && continuation b2
                        && continuation b3 && (65536 <=? cp4)
                        && (cp4 <=? 1114111))%bool
                    then 4%nat else 1%nat
                | EmptyString => 1%nat
                end
          | EmptyString => 1%nat
          end
    | EmptyString => 1%nat
    end.

(** ** The format-string iterator

    [str.format] reads its template with a one-pass iterator that yields
    literal text and replacement fields, and raises [ValueError] where the
    markup is malformed.  The iterator is lazy: fields to the left of a
    malformed place are looked up and rendered before the error is found,
    so the error is an item of the stream.  The delimiters are ASCII, so
    the iterator can walk the bytes; the one place where it takes a
    character whatever it is, the conversion after ['!'], takes a whole
    code point. *)

Inductive markup : Type :=
| Literal (text : string)
| Field (field_name : string) (conversion : ascii) (format_spec : string)
        (format_spec_needs_expanding : bool)
| Invalid.

(** No conversion is the NUL character, as in the implementation.  A
    conversion outside ASCII is kept by its first byte: the formatter
    knows [r], [s] and [a] and refuses every other in the same way. *)
Definition no_conversion : ascii := "000"%char.

Inductive scan_state : Type :=
| InText (literal : string)
| SeenOpen (literal : string)
| SeenClose (literal : string)
| InName (name : string)
| InIndex (name : string)
| SeenBang (name : string)
| SeenConv (name : string) (conversion : ascii) (more_bytes : nat)
| InSpec (name : string) (conversion : ascii) (spec : string)
         (count : nat) (expanding : bool).

Definition emit_literal (literal : string) : list markup :=
  match literal with
  | EmptyString => []
  | _ => [Literal literal]
  end.

(** One character of a field name: ['{'] is refused, ['['] opens an index
    that runs to the next [']'], and ['}'], [':'] and ['!'] end the name. *)
Definition name_step (name : string) (c : ascii)
  : list markup * option scan_state :=
  if Ascii.eqb c "{" then ([Invalid], None)
  else if Ascii.eqb c "[" then ([], Some (InIndex (snoc name c)))
  else if Ascii.eqb c "}" then
    ([Field name no_conversion "" false], Some (InText ""))
  else if Ascii.eqb c ":" then
    ([], Some (InSpec name no_conversion "" 1 false))
  else if Ascii.eqb c "!" then ([], Some (SeenBang name))
  else ([], Some (InName (snoc name c))).

Definition step (st : scan_state) (c : ascii) (rest : string)
  : list markup * option scan_state :=
  match st with
  | InText literal =>
      if Ascii.eqb c "{" then ([], Some (SeenOpen literal))
      else if Ascii.eqb c "}" then ([], Some (SeenClose literal))
      else ([], Some (InText (snoc literal c)))
  | SeenOpen literal =>
      if Ascii.eqb c "{" then ([], Some (InText (snoc literal "{")))
      else
        let '(out, next) := name_step "" c in
        (emit_literal literal ++ out, next)
  | SeenClose literal =>
      if Ascii.eqb c "}" then ([], Some (InText (snoc literal "}")))
      else ([Invalid], None)
  | InName name => name_step name c
  | InIndex name =>
      if Ascii.eqb c "]" then ([], Some (InName (snoc name c)))
      else ([], Some (InIndex (snoc name c)))
  | SeenBang name =>
      ([], Some (SeenConv name c (pred (code_point_width c rest))))
  | SeenConv name conversion (S more_bytes) =>
      ([], Some (SeenConv name conversion more_bytes))
  | SeenConv name conversion O =>
      if Ascii.eqb c "}" then
        ([Field name conversion "" false], Some (InText ""))
      else if Ascii.eqb c ":" then
        ([], Some (InSpec name conversion "" 1 false))
      else ([Invalid], None)
  | InSpec name conversion spec count expanding =>
      if Ascii.eqb c "{" then
        ([], Some (InSpec name conversion (snoc spec c) (S count) true))
      else if Ascii.eqb c "}" then
        match count with
        | 1%nat => ([Field name conversion spec expanding], Some (InText ""))
        | _ =>
            ([], Some (InSpec name conversion (snoc spec c) (pred count)
                         expanding))
        end
      else ([], Some (InSpec name conversion (snoc spec c) count expanding))
  end.

(** At the end of the template only plain text is a good place to stop. *)
Definition finish (st : scan_state) : list markup :=
  match st with
  | InText literal => emit_literal literal
  | _ => [Invalid]
  end.

Fixpoint scan (st : scan_state) (s : string) : list markup :=
  match s with
  | EmptyString => finish st
  | String c s' =>
      let '(out, next) := step st c s' in
      out ++ match next with
             | Some st' => scan st' s'
             | None => []
             end
  end.

Definition markup_iter (template : string) : list markup :=
  scan (InText "") template.


(** ** Rendering a replacement field *)

(** The part of a field name before the first ['.'] or ['['], and the
    accessors that follow it. *)
Fixpoint field_name_split (name : string) : string * string :=
  match name with
  | EmptyString => ("", "")
  | String c name' =>
      if (Ascii.eqb c "." || Ascii.eqb c "[")%bool then ("", name)
      else
        let '(first, rest) := field_name_split name' in
        (String c first, rest)
  end.

Definition PY_SSIZE_T_MAX : Z := 2 ^ 63 - 1.

(** What the formatter asks of the Python runtime.  The values of the
    program's dictionaries are [str] objects; attribute and item access,
    the conversions [!r], [!s], [!a] and [format(obj, spec)] are left
    abstract, but for the one fact the program relies on: a [str]
    formatted with the empty specification is itself.  The decimal value of
    a code point ([Py_UNICODE_TODECIMAL]) comes from the Unicode database
    of the runtime; in ASCII the decimal digits are [0] to [9]. *)
Class PyObjects : Type := {
  pyobj : Type;
  py_str : string -> pyobj;
  py_access : pyobj -> string -> result pyobj;
  py_conversion : ascii -> pyobj -> result pyobj;
  py_format : pyobj -> string -> result string;
  py_format_str : forall s, py_format (py_str s) "" = Ok s;
  py_todecimal : Z -> option Z;
  py_todecimal_ascii : forall cp, 0 <= cp < 128 ->
    py_todecimal cp
    = if ((48 <=? cp) && (cp <=? 57))%bool then Some (cp - 48) else None
}.

Section Format.
Context `{PyObjects}.

(** [get_integer]: [Ok None] is the implementation's [-1] (not a number),
    and a number too large for an index is a [ValueError]. *)
Fixpoint get_integer_from (accumulator : Z) (cps : list Z)
  : result (option Z) :=
  match cps with
  | [] => Ok (Some accumulator)
  | cp :: cps' =>
      match py_todecimal cp with
      | None => Ok None
      | Some digitval =>
          if (PY_SSIZE_T_MAX - digitval) / 10 <? accumulator
          then Err ValueError
          else get_integer_from (accumulator * 10 + digitval) cps'
      end
  end.

Definition get_integer (s : string) : result (option Z) :=
  match code_points s with
  | [] => Ok None
  | cps => get_integer_from 0 cps
  end.

(** The fields are looked up in the keyword arguments; the positional
    arguments are the empty tuple, so that an empty or numeric first
    part never resolves. *)
Definition get_field_object (kwargs : gmap string string)
    (field_name : string) : result pyobj :=
  let '(first, rest) := field_name_split field_name in
  index ← get_integer first;
  match first, index with
  | EmptyString, _ => Err IndexError
  | _, Some _ => Err IndexError
  | _, None =>
      value ← getitem kwargs first;
      match rest with
      | EmptyString => Ok (py_str value)
      | _ => py_access (py_str value) rest
      end
  end.

Definition do_conversion (obj : pyobj) (conversion : ascii)
  : result pyobj :=
  if (Ascii.eqb conversion "r" || Ascii.eqb conversion "s"
      || Ascii.eqb conversion "a")%bool
  then py_conversion conversion obj
  else Err ValueError.

Definition output_markup (expand : string -> result string)
    (kwargs : gmap string string)
    (field_name : string) (conversion : ascii) (format_spec : string)
    (format_spec_needs_expanding : bool) : result string :=
  fieldobj ← get_field_object kwargs field_name;
  fieldobj ← (if Ascii.eqb conversion no_conversion then Ok fieldobj
                else do_conversion fieldobj conversion);
  actual_format_spec ← (if format_spec_needs_expanding
                          then expand format_spec
                          else Ok format_spec);
  py_format fieldobj actual_format_spec.

Fixpoint do_markup (expand : string -> result string)
    (kwargs : gmap string string) (items : list markup)
  : result string :=
  match items with
  | [] => Ok ""
  | Literal text :: items' =>
      tail ← do_markup expand kwargs items';
      Ok (text +:+ tail)
  | Field name conversion spec expanding :: items' =>
      out ← output_markup expand kwargs name conversion spec expanding;
      tail ← do_markup expand kwargs items';
      Ok (out +:+ tail)
  | Invalid :: _ => Err ValueError
  end.

(** A format specification may hold replacement fields of its own, one
    level deep: the recursion depth starts at 2. *)
Fixpoint build_string (recursion_depth : nat)
    (kwargs : gmap string string) (input : string) : result string :=
  match recursion_depth with
  | O => Err ValueError
  | S depth =>
      do_markup (build_string depth kwargs) kwargs (markup_iter input)
  end.

(** [template.format( **kwargs )] *)
Definition format (template : string) (kwargs : gmap string string)
  : result string :=
  build_string 2 kwargs template.

End Format.

(** ** The process state *)

Record file : Type := { content : string; mode : Z }.

Record world : Type := {
  files : gmap string file;
  dirs : gset string;
  stdout : list string;
  umask : Z
}.

(** A computation runs in a world and returns a value or raises; the world
    it leaves behind is kept in both cases. *)
Definition M (A : Type) : Type := world -> result A * world.

#[global] Instance M_ret : MRet M := fun A a w => (Ok a, w).

#[global] Instance M_bind : MBind M := fun A B k m w =>
  match m w with
  | (Ok a, w') => k a w'
  | (Err e, w') => (Err e, w')
  end.

Definition lift {A} (r : result A) : M A := fun w => (r, w).

Definition set_files (w : world) (fs : gmap string file) : world :=
  {| files := fs; dirs := dirs w; stdout := stdout w; umask := umask w |}.

(** Whether a path names a directory.  [dirs] holds the directories by
    their paths without trailing separators; the empty path (the current
    directory, as a [dirname]) and the root are always there. *)
Definition dir_exists (w : world) (path : string) : bool :=
  match rstrip_sep path with
  | EmptyString => true
  | d => bool_decide (d ∈ dirs w)
  end.

(** [os.makedirs(path, exist_ok=True)]: the directory and every missing
    parent of it. *)
Definition makedirs (path : string) : M unit := fun w =>
  (Ok tt, {| files := files w;
             dirs := list_to_set (leading_dirs "" path) ∪ dirs w;
             stdout := stdout w; umask := umask w |}).

(** [open(path, "w")]: [FileNotFoundError] when the directory of the path
    is missing; otherwise the file is created with the permissions the
    umask leaves, or truncated with its permissions kept. *)
Definition open_w (path : string) : M unit := fun w =>
  if dir_exists w (dirname path) then
    let m := match files w !! path with
             | Some f => mode f
             | None => Z.land 438 (Z.lnot (umask w))
             end in
    (Ok tt,
     set_files w (<[ path := {| content := ""; mode := m |} ]> (files w)))
  else (Err (FileNotFoundError path), w).

(** [f.write(text)] on the file opened at [path]. *)
Definition write (path text : string) : M unit := fun w =>
  (Ok tt, set_files w
     (alter (fun f => {| content := content f +:+ text; mode := mode f |})
        path (files w))).

(** [os.chmod(path, m)] *)
Definition chmod (path : string) (m : Z) : M unit := fun w =>
  match files w !! path with
  | Some f =>
      (Ok tt, set_files w (<[ path := {| content := content f; mode := m |} ]>
                             (files w)))
  | None => (Err (FileNotFoundError path), w)
  end.

(** [print(line)] *)
Definition print (line : string) : M unit := fun w =>
  (Ok tt, {| files := files w; dirs := dirs w;
             stdout := stdout w ++ [line]; umask := umask w |}).

(** [for x in xs: body], with the variables the body updates as an
    accumulator. *)
Fixpoint for_each {A S} (xs : list A) (body : S -> A -> M S) (acc : S)
  : M S :=
  match xs with
  | [] => mret acc
  | x :: xs' => acc' ← body acc x; for_each xs' body acc'
  end.

(** [xs[-1]] *)
Definition last_item {A} (xs : list A) : result A :=
  match last xs with
  | Some x => Ok x
  | None => Err IndexError
  end.

(** 0o755 *)
Definition rwxr_xr_x : Z := 7 * 64 + 5 * 8 + 5.

(** ** The program *)

Definition SCRIPT_TEMPLATE : string :=
"#!/bin/bash
set -e
# jedi caching
export XDG_CACHE_HOME={outdir}/{instance_id}
rm -rf {outdir}/{instance_id}/repo
git clone {repo_path} {outdir}/{instance_id}/repo
cd {outdir}/{instance_id}/repo
git checkout {commit}
cd -
echo Logs for {instance_id} is at {outdir}/{instance_id}/log.txt
( {command} ) > {outdir}/{instance_id}/log.txt 2>&1
".

Definition INCLUDE : gmap string string :=
  {[ "flask" := "src";
     "matplotlib" := "lib/matplotlib";
     "pytest" := "src";
     "astropy" := "astropy";
     "scikit-learn" := "sklearn";
     "seaborn" := "seaborn";
     "sympy" := "sympy";
     "django" := "django";
     "pylint" := "pylint";
     "requests" := "src";
     "sphinx" := "sphinx";
     "xarray" := "xarray" ]}.

Definition pylsp_template : string :=
  "./abcoder parse python {repo_path} -verbose -o {outdir}/{instance_id}.json -include {include_path} -lsp-cache-path {outdir}/{instance_id}/lsp_cache.json".

Definition jedi_template : string :=
  "./abcoder parse python {repo_path} -verbose -o {outdir}/{instance_id}.json -include {include_path} -lsp-cache-path {outdir}/{instance_id}/lsp_cache.json -lsp jedi-language-server -lsp-flags '--log-file {outdir}/{instance_id}/lsp.log -v'".

Definition DEFAULT_COMMAND_TEMPLATES : gmap string string :=
  {[ "pylsp" := pylsp_template; "jedi" := jedi_template ]}.

(** The parsed command line: [-i] (one or more values), [-o], [-c], [-p]. *)
Record Namespace : Type := {
  instance_ids : list string;
  outdir : string;
  command : string;
  parallel : bool
}.

Record job : Type := {
  instance_id : string;
  repo_path : string;
  commit : string
}.

(** A row of the catalog holds at least the base commit. *)
Record info : Type := { base_commit : string }.

(** What the program imports from [dzyswe] and uses: the catalog, a
    dictionary keyed by identifier, and two functions of the identifier,
    taken here as total. *)
Class Dzyswe : Type := {
  sweall : gmap string info;
  reponame : string -> string;
  repopath : string -> string
}.

Section Program.
Context `{PyObjects} `{Dzyswe}.

Definition compute_jobs_body (jobs : list job) (instance_id : string)
  : M (list job) :=
  info ← lift (getitem sweall instance_id);
  let base_commit := base_commit info in
  let repo_path := repopath instance_id in
  mret (jobs ++ [ {| instance_id := instance_id;
                     repo_path := repo_path;
                     commit := base_commit |} ]).

Definition compute_jobs (args : Namespace) : M (list job) :=
  for_each (instance_ids args) compute_jobs_body [].

Definition create_scripts_body (args : Namespace) (scripts : list string)
    (job : job) : M (list string) :=
  let instance_id := instance_id job in
  let repo_path := repo_path job in
  let commit := commit job in
  let instance_dir := path_join (outdir args) instance_id in
  include_path ← lift (getitem INCLUDE (reponame instance_id));
  makedirs instance_dir;;
  let script_path := path_join instance_dir "main.sh" in
  let format_dict : gmap string string :=
    {[ "repo_path" := repo_path;
       "commit" := commit;
       "include_path" := include_path;
       "instance_id" := instance_id;
       "outdir" := outdir args ]} in
  let command :=
    dict_get DEFAULT_COMMAND_TEMPLATES (command args) (command args) in
  rendered ← lift (format command format_dict);
  let format_dict := <[ "command" := rendered ]> format_dict in
  open_w script_path;;
  text ← lift (format SCRIPT_TEMPLATE format_dict);
  write script_path text;;
  chmod script_path rwxr_xr_x;;
  mret (scripts ++ [script_path]).

Definition create_scripts (args : Namespace) (jobs : list job)
  : M (list string) :=
  for_each jobs (create_scripts_body args) [].

Definition create_top_script (args : Namespace) (scripts : list string)
  : M unit :=
  let top := outdir args +:+ "/run_all.sh" in
  open_w top;;
  write top ("#!/bin/bash" +:+ nl +:+ "set -e" +:+ nl);;
  (if parallel args then
     write top ("echo Executing in parallel mode..." +:+ nl);;
     write top ("parallel ::: \" +:+ nl);;
     for_each (removelast scripts) (fun _ script =>
       write top ("./" +:+ script +:+ " \" +:+ nl)) tt;;
     script ← lift (last_item scripts);
     write top ("./" +:+ script +:+ nl)
   else
     for_each scripts (fun _ script =>
       write top ("./" +:+ script +:+ nl)) tt);;
  chmod top rwxr_xr_x;;
  print ("To run all jobs, execute: ./" +:+ outdir args +:+ "/run_all.sh").

Definition main (args : Namespace) : M unit :=
  jobs ← compute_jobs args;
  scripts ← create_scripts args jobs;
  create_top_script args scripts.

End Program.

(** ** Notions the statements use *)

Definition unlines (lines : list string) : string :=
  foldr (fun line rest => line +:+ nl +:+ rest) "" lines.

Fixpoint join (sep : string) (xs : list string) : string :=
  match xs with
  | [] => ""
  | [x] => x
  | x :: xs' => x +:+ sep +:+ join sep xs'
  end.

(** The keys of the dictionary a command template is formatted with. *)
Definition format_keys : list string :=
  ["repo_path"; "commit"; "include_path"; "instance_id"; "outdir"].

(** The lines of an isolation script, for the job directory
    [outdir/instance_id] as the template spells it. *)
Definition script_lines (outdir instance_id repo_path commit command : string)
  : list string :=
  let d := outdir +:+ "/" +:+ instance_id in
  [ "#!/bin/bash";
    "set -e";
    "# jedi caching";
    "export XDG_CACHE_HOME=" +:+ d;
    "rm -rf " +:+ d +:+ "/repo";
    "git clone " +:+ repo_path +:+ " " +:+ d +:+ "/repo";
    "cd " +:+ d +:+ "/repo";
    "git checkout " +:+ commit;
    "cd -";
    "echo Logs for " +:+ instance_id +:+ " is at " +:+ d +:+ "/log.txt";
    "( " +:+ command +:+ " ) > " +:+ d +:+ "/log.txt 2>&1" ].

(** A plain field [{name}]: no accessor, conversion or specification. *)
Definition plain_name `{PyObjects} (name : string) : bool :=
  match name, field_name_split name, get_integer name with
  | String _ _, (_, EmptyString), Ok None => true
  | _, _, _ => false
  end.

(** A name that is looked up in the keyword arguments: not empty and not
    a number. *)
Definition named `{PyObjects} (k : string) : bool :=
  match k, get_integer k with
  | String _ _, Ok None => true
  | _, _ => false
  end.

(** The first part of a field name is what the dictionary is asked for. *)
Definition first_part (field_name : string) : string :=
  (field_name_split field_name).1.

(** A template references a name in a replacement field, or in a field
    nested in the format specification of one. *)
Inductive references : string -> string -> Prop :=
| references_field template name conversion spec expanding :
    Field name conversion spec expanding ∈ markup_iter template ->
    references template (first_part name)
| references_spec template name conversion spec k :
    Field name conversion spec true ∈ markup_iter template ->
    references spec k ->
    references template k.

Section Notions.
Context `{PyObjects} `{Dzyswe}.

Definition job_dir (args : Namespace) (j : job) : string :=
  path_join (outdir args) (instance_id j).

Definition job_path (args : Namespace) (j : job) : string :=
  path_join (job_dir args j) "main.sh".

(** The directories of the jobs, with the parents [os.makedirs] makes. *)
Fixpoint job_dirs (args : Namespace) (jobs : list job) : gset string :=
  match jobs with
  | [] => ∅
  | j :: jobs' =>
      list_to_set (leading_dirs "" (job_dir args j)) ∪ job_dirs args jobs'
  end.

Definition job_dict (args : Namespace) (j : job) (include_path : string)
  : gmap string string :=
  {[ "repo_path" := repo_path j;
     "commit" := commit j;
     "include_path" := include_path;
     "instance_id" := instance_id j;
     "outdir" := outdir args ]}.

Definition job_template (args : Namespace) : string :=
  dict_get DEFAULT_COMMAND_TEMPLATES (command args) (command args).

(** The first substitution: the command of a job. *)
Definition job_command (args : Namespace) (j : job) : result string :=
  include_path ← getitem INCLUDE (reponame (instance_id j));
  format (job_template args) (job_dict args j include_path).

Definition job_script (args : Namespace) (j : job) (command : string)
  : file :=
  {| content := unlines (script_lines (outdir args) (instance_id j)
                           (repo_path j) (commit j) command);
     mode := rwxr_xr_x |}.

(** The job the catalog resolves an identifier to. *)
Definition resolve (instance_id : string) : option job :=
  info ← sweall !! instance_id;
  Some {| instance_id := instance_id;
          repo_path := repopath instance_id;
          commit := base_commit info |}.

End Notions.

(** The state after [os.makedirs(path, exist_ok=True)]. *)
Definition with_dir (path : string) (w : world) : world :=
  {| files := files w; dirs := list_to_set (leading_dirs "" path) ∪ dirs w;
     stdout := stdout w; umask := umask w |}.

(** The state after a file is written in full and its mode set. *)
Definition install (path : string) (f : file) (w : world) : world :=
  set_files w (<[ path := f ]> (files w)).

(** The world the aggregator leaves when it succeeds. *)
Definition with_top_script (args : Namespace) (text : string) (w : world)
  : world :=
  {| files := <[ outdir args +:+ "/run_all.sh" :=
                   {| content := text; mode := rwxr_xr_x |} ]> (files w);
     dirs := dirs w;
     stdout := stdout w
               ++ ["To run all jobs, execute: ./" +:+ outdir args
                   +:+ "/run_all.sh"];
     umask := umask w |}.

(** A text with every brace doubled: the way to write a literal brace in a
    template. *)
Fixpoint escape_braces (s : string) : string :=
  match s with
  | EmptyString => ""
  | String c s' =>
      if (Ascii.eqb c "{" || Ascii.eqb c "}")%bool
      then String c (String c (escape_braces s'))
      else String c (escape_braces s')
  end.

Fixpoint brace_free (s : string) : bool :=
  match s with
  | EmptyString => true
  | String c s' =>
      (negb (Ascii.eqb c "{" || Ascii.eqb c "}") && brace_free s')%bool
  end.


(** ** A runtime and a catalog for the examples *)

(** Where the runs of ten decimal digits start, outside ASCII. *)
Definition decimal_blocks : list Z :=
  [ 1632; 1776; 1984; 2406; 2534; 2662; 2790; 2918; 3046; 3174; 3302; 3430;
    3558; 3664; 3792; 3872; 4160; 4240; 6112; 6160; 6470; 6608; 6784; 6800;
    6992; 7088; 7232; 7248; 42528; 43216; 43264; 43472; 43504; 43600; 44016;
    65296; 66720; 68912; 69734; 69872; 69942; 70096; 70384; 70736; 70864;
    71248; 71360; 71472; 71904; 72016; 72784; 73040; 73120; 92768; 92864;
    93008; 120782; 120792; 120802; 120812; 120822; 123200; 123632; 125264;
    130032 ].

(** The decimal digits of Unicode 14: [0] to [9], and sixty-five more runs
    of ten code points. *)
Definition unicode_todecimal (cp : Z) : option Z :=
  if cp <? 128 then
    if ((48 <=? cp) && (cp <=? 57))%bool then Some (cp - 48) else None
  else
    match filter (fun start => start <= cp < start + 10) decimal_blocks with
    | start :: _ => Some (cp - start)
    | [] => None
    end.

(** [str] objects only: the conversion [!s] and the empty format
    specification are the identity on them; the examples use nothing
    else, and everything else raises here.  The decimal digits are those
    of the table above. *)
Definition str_objects : PyObjects := {|
  pyobj := string;
  py_str := fun s => s;
  py_access := fun _ _ => Err (OtherError "AttributeError");
  py_conversion := fun c o =>
    if Ascii.eqb c "s" then Ok o else Err (OtherError "NotImplementedError");
  py_format := fun o spec =>
    match spec with
    | EmptyString => Ok o
    | _ => Err (OtherError "NotImplementedError")
    end;
  py_format_str := fun s => eq_refl;
  py_todecimal := unicode_todecimal;
  py_todecimal_ascii :=
    ltac:(intros cp Hcp; unfold unicode_todecimal;
          destruct (Z.ltb_spec cp 128); [reflexivity | lia])
|}.

Definition sample_families : gmap string string :=
  {[ "pallets__flask-4045" := "flask";
     "psf__requests-2317" := "requests";
     "foo__bar-123" := "bar" ]}.

Definition sample_dzyswe : Dzyswe := {|
  sweall :=
    {[ "pallets__flask-4045" := {| base_commit := "d8c37f4" |};
       "psf__requests-2317" := {| base_commit := "091991b" |};
       "foo__bar-123" := {| base_commit := "0123abc" |} ]};
  reponame := fun instance_id => dict_get sample_families instance_id "";
  repopath := fun instance_id => "/data/repos/" +:+ instance_id
|}.

Definition empty_world : world :=
  {| files := ∅; dirs := ∅; stdout := []; umask := 18 |}.

(** A world with a script left by an earlier run. *)
Definition stale_world : world :=
  {| files := {[ "sweout/pallets__flask-4045/main.sh" :=
                   {| content := "#!/bin/bash"; mode := 420 |} ]};
     dirs := {[ "sweout" ]}; stdout := []; umask := 0 |}.

Definition sample_args (ids : list string) (c : string) (p : bool)
  : Namespace :=
  {| instance_ids := ids; outdir := "sweout"; command := c; parallel := p |}.

Definition flask_job : job :=
  {| instance_id := "pallets__flask-4045";
     repo_path := "/data/repos/pallets__flask-4045";
     commit := "d8c37f4" |}.

Definition requests_job : job :=
  {| instance_id := "psf__requests-2317";
     repo_path := "/data/repos/psf__requests-2317";
     commit := "091991b" |}.

Definition bar_job : job :=
  {| instance_id := "foo__bar-123";
     repo_path := "/data/repos/foo__bar-123";
     commit := "0123abc" |}.


(** * Properties *)

(** ** Strings *)

Lemma append_assoc (a b c : string) : (a +:+ b) +:+ c = a +:+ (b +:+ c).
Proof. induction a as [|x a IH]; simpl; [done | by rewrite IH]. Qed.

Lemma append_nil_r (a : string) : a +:+ "" = a.
Proof. induction a as [|x a IH]; simpl; [done | by rewrite IH]. Qed.

Lemma unlines_app (xs ys : list string) :
  unlines (xs ++ ys) = unlines xs +:+ unlines ys.
Proof.
  induction xs as [|x xs IH]; simpl; [done |].
  by rewrite IH, !append_assoc.
Qed.

(** Normal form of a concatenation: literals consed, appends nested to the
    right. *)
Ltac string_norm :=
  repeat (rewrite ?append_assoc, ?append_nil_r; cbn [String.append]).

(** ** The formatter *)

Section FormatFacts.
Context `{PyObjects}.

Lemma field_name_split_rest_nil name first :
  field_name_split name = (first, "") -> first = name.
Proof.
  revert first. induction name as [|c name IH]; intros first; simpl.
  - by intros [= <-].
  - destruct (Ascii.eqb c "." || Ascii.eqb c "[")%bool; [done |].
    destruct (field_name_split name) as [f r]. intros [= <- ->].
    by rewrite (IH f).
Qed.

(** A name that begins with an ASCII character other than a digit is not
    a number, in every Unicode database. *)
Lemma get_integer_ascii_head (c : ascii) (rest : string) :
  (byte c <? 128) = true ->
  ((48 <=? byte c) && (byte c <=? 57))%bool = false ->
  get_integer (String c rest) = Ok None.
Proof.
  intros Hascii Hdigit. unfold get_integer. cbn [code_points].
  rewrite Hascii. cbn [get_integer_from].
  rewrite py_todecimal_ascii, Hdigit; [done |].
  apply Z.ltb_lt in Hascii. unfold byte in *. lia.
Qed.

Lemma plain_name_ascii (c : ascii) (rest : string) :
  (byte c <? 128) = true ->
  ((48 <=? byte c) && (byte c <=? 57))%bool = false ->
  (field_name_split (String c rest)).2 = "" ->
  plain_name (String c rest) = true.
Proof.
  intros Hascii Hdigit Hrest. unfold plain_name.
  rewrite get_integer_ascii_head by done.
  destruct (field_name_split (String c rest)) as [first r].
  cbn in Hrest. by subst r.
Qed.

Lemma named_ascii (c : ascii) (rest : string) :
  (byte c <? 128) = true ->
  ((48 <=? byte c) && (byte c <=? 57))%bool = false ->
  named (String c rest) = true.
Proof.
  intros Hascii Hdigit. unfold named.
  by rewrite get_integer_ascii_head.
Qed.

Lemma output_markup_plain expand kwargs name :
  plain_name name = true ->
  output_markup expand kwargs name no_conversion "" false
  = getitem kwargs name.
Proof.
  unfold plain_name, output_markup, get_field_object. intros Hp.
  destruct name as [|c name]; [done |].
  destruct (field_name_split (String c name)) as [f r] eqn:Hs.
  destruct r; [| done].
  apply field_name_split_rest_nil in Hs as ->.
  destruct (get_integer (String c name)) as [[?|]|]; try done.
  cbn. destruct (getitem kwargs (String c name)); cbn; [| done].
  apply py_format_str.
Qed.

Lemma do_markup_app expand kwargs xs ys :
  do_markup expand kwargs (xs ++ ys)
  = (a ← do_markup expand kwargs xs;
     b ← do_markup expand kwargs ys;
     Ok (a +:+ b)).
Proof.
  induction xs as [|x xs IH]; simpl.
  - by destruct (do_markup expand kwargs ys).
  - destruct x; [| | done].
    + rewrite IH. destruct (do_markup expand kwargs xs); cbn; [| done].
      destruct (do_markup expand kwargs ys); cbn; [| done].
      by rewrite append_assoc.
    + destruct (output_markup _ _ _ _ _ _); cbn; [| done].
      rewrite IH. destruct (do_markup expand kwargs xs); cbn; [| done].
      destruct (do_markup expand kwargs ys); cbn; [| done].
      by rewrite append_assoc.
Qed.

End FormatFacts.

(** ** The two substitutions of a job *)

Section Templates.
Context `{PyObjects} `{Dzyswe}.

Lemma job_dict_lookup args j inc k :
  job_dict args j inc !! k =
    if decide (k = "repo_path") then Some (repo_path j)
    else if decide (k = "commit") then Some (commit j)
    else if decide (k = "include_path") then Some inc
    else if decide (k = "instance_id") then Some (instance_id j)
    else if decide (k = "outdir") then Some (outdir args)
    else None.
Proof.
  unfold job_dict.
  repeat (case_decide; [subst k; by simplify_map_eq |]).
  by simplify_map_eq.
Qed.

Lemma job_dict_lookup_None args j inc k :
  k ∉ format_keys -> job_dict args j inc !! k = None.
Proof.
  intros Hk. rewrite job_dict_lookup.
  repeat (case_decide; [subst k; exfalso; apply Hk; set_solver |]).
  done.
Qed.

Lemma script_dict_lookup args j inc cmd k :
  k <> "command" ->
  getitem (<[ "command" := cmd ]> (job_dict args j inc)) k
  = getitem (job_dict args j inc) k.
Proof. intros Hk. unfold getitem. by rewrite lookup_insert_ne. Qed.

(** The second substitution: the skeleton, with the command as a value. *)
Lemma format_SCRIPT_TEMPLATE args j inc cmd :
  format SCRIPT_TEMPLATE (<[ "command" := cmd ]> (job_dict args j inc))
  = Ok (content (job_script args j cmd)).
Proof.
  unfold format, build_string.
  let items := eval vm_compute in (markup_iter SCRIPT_TEMPLATE) in
  change (markup_iter SCRIPT_TEMPLATE) with items.
  cbn [do_markup].
  rewrite !output_markup_plain by (by apply plain_name_ascii).
  assert (getitem (<[ "command" := cmd ]> (job_dict args j inc)) "command"
          = Ok cmd) as ->.
  { unfold getitem. by rewrite lookup_insert_eq. }
  rewrite !script_dict_lookup by done.
  unfold getitem. rewrite !job_dict_lookup. cbn.
  unfold unlines, script_lines, nl. cbn [foldr].
  f_equal. string_norm. reflexivity.
Qed.

(** The two registered templates have plain fields of the five keys
    only: they format for every job. *)
Lemma registered_templates_format args j inc template :
  template = pylsp_template \/ template = jedi_template ->
  exists cmd, format template (job_dict args j inc) = Ok cmd.
Proof.
  intros [-> | ->]; unfold format, build_string.
  - let items := eval vm_compute in (markup_iter pylsp_template) in
    change (markup_iter pylsp_template) with items.
    cbn [do_markup]. rewrite !output_markup_plain by (by apply plain_name_ascii).
    unfold getitem. rewrite !job_dict_lookup. cbn. by eexists.
  - let items := eval vm_compute in (markup_iter jedi_template) in
    change (markup_iter jedi_template) with items.
    cbn [do_markup]. rewrite !output_markup_plain by (by apply plain_name_ascii).
    unfold getitem. rewrite !job_dict_lookup. cbn. by eexists.
Qed.

(** With a registered command, a job renders as soon as its family is in
    [INCLUDE]. *)
Lemma registered_commands_render args j :
  command args = "pylsp" \/ command args = "jedi" ->
  is_Some (INCLUDE !! reponame (instance_id j)) ->
  exists cmd, job_command args j = Ok cmd.
Proof.
  intros Hc [inc Hinc]. unfold job_command, getitem. rewrite Hinc. cbn.
  apply registered_templates_format. unfold job_template.
  destruct Hc as [-> | ->]; [by left | by right].
Qed.

End Templates.

(** ** Paths *)

Lemma append_not_nil a b : b <> "" -> a +:+ b <> "".
Proof. destruct a; [done |]. by intros _. Qed.

Lemma endswith_sep_app a b : b <> "" -> endswith_sep (a +:+ b) = endswith_sep b.
Proof.
  intros Hb. induction a as [|c a IH]; [done |].
  cbn [String.append endswith_sep]. rewrite IH.
  pose proof (append_not_nil a b Hb). by destruct (a +:+ b).
Qed.

Lemma path_join_plain a b :
  a <> "" -> endswith_sep a = false -> startswith_sep b = false ->
  path_join a b = a +:+ "/" +:+ b.
Proof.
  intros Ha He Hs. unfold path_join. rewrite Hs, He.
  by destruct a.
Qed.

Lemma script_path_plain outdir i :
  outdir <> "" -> endswith_sep outdir = false -> plain_component i = true ->
  path_join (path_join outdir i) "main.sh" = outdir +:+ "/" +:+ i +:+ "/main.sh".
Proof.
  unfold plain_component. intros Ho He Hi.
  apply andb_prop in Hi as [Hi Hend]. apply andb_prop in Hi as [Hnil Hstart].
  apply negb_true_iff in Hend, Hnil, Hstart.
  assert (i <> "") as Hi by (by destruct i).
  rewrite (path_join_plain outdir i) by done.
  rewrite path_join_plain.
  - by rewrite !append_assoc.
  - by destruct outdir.
  - rewrite endswith_sep_app; [| by apply append_not_nil].
    by rewrite (endswith_sep_app "/" i).
  - done.
Qed.

(** ** Directories *)

Lemma rstrip_sep_app_sep (a : string) : rstrip_sep (a +:+ "/") = rstrip_sep a.
Proof. induction a as [|c a IH]; [done |]. cbn. by rewrite IH. Qed.

Lemma rstrip_sep_id (a : string) : endswith_sep a = false -> rstrip_sep a = a.
Proof.
  induction a as [|c a IH]; [done |]. cbn [endswith_sep rstrip_sep].
  destruct a as [|c' a].
  - cbn. by intros ->.
  - intros Ha. rewrite (IH Ha). done.
Qed.

Lemma endswith_sep_rstrip (a : string) : endswith_sep (rstrip_sep a) = false.
Proof.
  induction a as [|c a IH]; [done |]. cbn [rstrip_sep].
  destruct (rstrip_sep a) as [|c' r] eqn:Hr.
  - destruct (Ascii.eqb c "/") eqn:Hc; [done |]. cbn. by rewrite Hc.
  - done.
Qed.

Lemma rstrip_sep_idem (a : string) : rstrip_sep (rstrip_sep a) = rstrip_sep a.
Proof. apply rstrip_sep_id, endswith_sep_rstrip. Qed.


Lemma rsplit_sep_endswith (a : string) :
  endswith_sep a = true -> rsplit_sep a = (a, "").
Proof.
  induction a as [|c a IH]; [done |]. cbn [endswith_sep rsplit_sep].
  destruct a as [|c' a].
  - cbn. by intros ->.
  - intros Ha. by rewrite (IH Ha).
Qed.

(** A tail without separator stays the tail. *)
Lemma rsplit_sep_app (a t : string) :
  rsplit_sep t = ("", t) ->
  rsplit_sep (a +:+ t) = ((rsplit_sep a).1, (rsplit_sep a).2 +:+ t).
Proof.
  intros Ht. induction a as [|c a IH]; [done |].
  cbn [String.append rsplit_sep]. rewrite IH.
  destruct (rsplit_sep a) as [h t']. cbn [fst snd].
  destruct h; [| done]. by destruct (Ascii.eqb c "/").
Qed.

Lemma dir_exists_dirname_app (w : world) (a t : string) :
  endswith_sep a = true -> rsplit_sep t = ("", t) ->
  dir_exists w (dirname (a +:+ t)) = dir_exists w a.
Proof.
  intros Ha Ht. unfold dirname, dir_exists.
  rewrite (rsplit_sep_app a t Ht), (rsplit_sep_endswith a Ha). cbn [fst].
  destruct (rstrip_sep a) as [|c r] eqn:Hr.
  - by rewrite Hr.
  - rewrite <- Hr, rstrip_sep_idem. by rewrite Hr.
Qed.

Lemma dir_exists_dirname_sep (w : world) (a t : string) :
  rsplit_sep t = ("", t) ->
  dir_exists w (dirname (a +:+ "/" +:+ t)) = dir_exists w a.
Proof.
  intros Ht. rewrite <- append_assoc, dir_exists_dirname_app; [| | done].
  - unfold dir_exists. by rewrite rstrip_sep_app_sep.
  - by rewrite endswith_sep_app.
Qed.

(** The directory of a job's script is the job's directory. *)
Lemma dir_exists_script (w : world) (d : string) :
  dir_exists w (dirname (path_join d "main.sh")) = dir_exists w d.
Proof.
  unfold path_join. cbn [startswith_sep Ascii.eqb].
  destruct (String.eqb_spec d "") as [-> | Hd]; [done |].
  cbn [orb]. destruct (endswith_sep d) eqn:Hend.
  - by apply dir_exists_dirname_app.
  - by apply dir_exists_dirname_sep.
Qed.

(** The directory of the aggregate script is the output directory. *)
Lemma dir_exists_top (w : world) (o : string) :
  dir_exists w (dirname (o +:+ "/run_all.sh")) = dir_exists w o.
Proof. by apply dir_exists_dirname_sep. Qed.

Lemma leading_dirs_here (q s : string) :
  q <> "" -> endswith_sep q = false -> rstrip_sep s = "" ->
  q ∈ leading_dirs q s.
Proof.
  intros Hq Hend Hs. destruct s as [|c s].
  - cbn. rewrite Hend. destruct q; [done |]. cbn. apply list_elem_of_here.
  - cbn [rstrip_sep] in Hs. cbn [leading_dirs].
    destruct (rstrip_sep s); [| done].
    destruct (Ascii.eqb c "/"); [| done].
    rewrite Hend. destruct q; [done |]. cbn. apply list_elem_of_here.
Qed.

(** [os.makedirs] makes the directory it is asked for. *)
Lemma leading_dirs_self (p s : string) :
  rstrip_sep s <> "" -> p +:+ rstrip_sep s ∈ leading_dirs p s.
Proof.
  revert p. induction s as [|c s IH]; intros p; [done |].
  cbn [rstrip_sep leading_dirs]. intros Hs.
  apply elem_of_app. right.
  destruct (rstrip_sep s) as [|c' r] eqn:Hr.
  - destruct (Ascii.eqb c "/") eqn:Hc; [done |].
    apply leading_dirs_here; [by apply append_not_nil | | done].
    rewrite endswith_sep_app by done. cbn. by rewrite Hc.
  - specialize (IH (p +:+ String c "")). rewrite append_assoc in IH.
    by apply IH.
Qed.


Lemma dir_exists_with_dir (d : string) (w : world) :
  dir_exists (with_dir d w) d = true.
Proof.
  unfold dir_exists. destruct (rstrip_sep d) as [|c r] eqn:Hr; [done |].
  apply bool_decide_eq_true_2. cbn. apply elem_of_union. left.
  apply elem_of_list_to_set. rewrite <- Hr.
  apply (leading_dirs_self "" d). by rewrite Hr.
Qed.



(** ** Loops *)

Lemma for_each_app {A S} (xs ys : list A) (body : S -> A -> M S) acc w :
  for_each (xs ++ ys) body acc w =
    match for_each xs body acc w with
    | (Ok acc', w') => for_each ys body acc' w'
    | (Err e, w') => (Err e, w')
    end.
Proof.
  revert acc w. induction xs as [|x xs IH]; intros acc w; [done |].
  cbn [app for_each]. unfold mbind, M_bind.
  destruct (body acc x w) as [[acc'|e] w']; [apply IH | done].
Qed.

(** ** Planning *)

Section Planning.
Context `{PyObjects} `{Dzyswe}.

Lemma compute_jobs_body_run jobs instance_id w :
  compute_jobs_body jobs instance_id w =
    match resolve instance_id with
    | Some j => (Ok (jobs ++ [j]), w)
    | None => (Err (KeyError instance_id), w)
    end.
Proof.
  unfold compute_jobs_body, resolve, lift, getitem, mbind, M_bind.
  by destruct (sweall !! instance_id).
Qed.

Lemma compute_jobs_loop_ok ids jobs acc w :
  Forall2 (fun i j => resolve i = Some j) ids jobs ->
  for_each ids compute_jobs_body acc w = (Ok (acc ++ jobs), w).
Proof.
  intros HF. revert acc. induction HF as [|i j ids jobs Hi _ IH]; intros acc.
  - by rewrite app_nil_r.
  - cbn [for_each]. unfold mbind, M_bind at 1.
    rewrite compute_jobs_body_run, Hi, IH.
    by rewrite <- app_assoc.
Qed.

(** Planning reads the catalog and nothing else: the world is as it
    was, whatever the outcome. *)
Lemma compute_jobs_loop_world ids acc w :
  (for_each ids compute_jobs_body acc w).2 = w.
Proof.
  revert acc. induction ids as [|i ids IH]; intros acc; [done |].
  cbn [for_each]. unfold mbind, M_bind at 1.
  rewrite compute_jobs_body_run. destruct (resolve i); [apply IH | done].
Qed.

Lemma compute_jobs_ok args jobs w :
  Forall2 (fun i j => resolve i = Some j) (instance_ids args) jobs ->
  compute_jobs args w = (Ok jobs, w).
Proof. intros HF. unfold compute_jobs. by rewrite (compute_jobs_loop_ok _ jobs). Qed.

Lemma compute_jobs_missing args pre bad post w :
  instance_ids args = pre ++ bad :: post ->
  Forall (fun i => is_Some (sweall !! i)) pre ->
  sweall !! bad = None ->
  compute_jobs args w = (Err (KeyError bad), w).
Proof.
  intros Hids Hpre Hbad. unfold compute_jobs. rewrite Hids, for_each_app.
  assert (exists jobs, Forall2 (fun i j => resolve i = Some j) pre jobs)
    as [jobs Hjobs].
  { clear Hids. induction pre as [|i pre IH]; [by exists [] |].
    apply Forall_cons in Hpre as [[inf Hi] Hpre].
    destruct (IH Hpre) as [jobs Hjobs].
    eexists (_ :: jobs). constructor; [| done].
    unfold resolve. by rewrite Hi. }
  rewrite (compute_jobs_loop_ok _ jobs) by done.
  cbn [for_each]. unfold mbind, M_bind at 1.
  rewrite compute_jobs_body_run. unfold resolve. by rewrite Hbad.
Qed.

Lemma compute_jobs_inv args jobs w w' :
  compute_jobs args w = (Ok jobs, w') ->
  w' = w /\ Forall2 (fun i j => resolve i = Some j) (instance_ids args) jobs.
Proof.
  unfold compute_jobs. intros Hrun. split.
  { by rewrite <- (compute_jobs_loop_world (instance_ids args) [] w), Hrun. }
  assert (forall ids acc out,
    for_each ids compute_jobs_body acc w = (Ok out, w') ->
    exists js, out = acc ++ js
               /\ Forall2 (fun i j => resolve i = Some j) ids js) as Hgen.
  { induction ids as [|i ids IH]; intros acc out.
    - intros [= <- _]. exists []. by rewrite app_nil_r.
    - cbn [for_each]. unfold mbind, M_bind at 1.
      rewrite compute_jobs_body_run. destruct (resolve i) as [j|] eqn:Hi; [| done].
      intros (js & -> & HF)%IH. exists (j :: js).
      split; [by rewrite <- app_assoc | by constructor]. }
  destruct (Hgen _ _ _ Hrun) as (js & -> & HF). done.
Qed.

End Planning.

(** ** Files *)

Lemma install_same path f w :
  files w !! path = Some f -> install path f w = w.
Proof.
  intros Hf. destruct w as [fs ds out um]. unfold install, set_files.
  cbn in *. by rewrite insert_id.
Qed.

Lemma install_install path f g w :
  install path g (install path f w) = install path g w.
Proof. unfold install, set_files. cbn. by rewrite insert_insert_eq. Qed.

Lemma write_run path text f w :
  files w !! path = Some f ->
  write path text w
  = (Ok tt, install path {| content := content f +:+ text; mode := mode f |} w).
Proof.
  intros Hf. unfold write, install. by rewrite (alter_alt_Some _ _ _ f).
Qed.

(** A loop of writes appends the pieces to the open file, in order. *)
Lemma write_loop path (piece : string -> string) xs f w :
  files w !! path = Some f ->
  for_each xs (fun _ x => write path (piece x)) tt w
  = (Ok tt,
     install path
       {| content := content f +:+ foldr (fun x rest => piece x +:+ rest) "" xs;
          mode := mode f |} w).
Proof.
  revert f w. induction xs as [|x xs IH]; intros f w Hf.
  - cbn. rewrite append_nil_r. rewrite install_same; [done |].
    by destruct f.
  - cbn [for_each foldr]. unfold mbind at 1. unfold M_bind at 1.
    rewrite (write_run _ _ f) by done.
    rewrite (IH {| content := content f +:+ piece x; mode := mode f |}).
    + cbn [content mode]. by rewrite install_install, append_assoc.
    + unfold install. cbn. by rewrite lookup_insert_eq.
Qed.

Lemma join_cons_last sep x ys l :
  last ys = Some l ->
  join sep (x :: ys)
  = x +:+ sep +:+ foldr (fun y rest => (y +:+ sep) +:+ rest) "" (removelast ys)
      +:+ l.
Proof.
  revert x. induction ys as [|y ys IH]; intros x; [done |].
  destruct ys as [|y' ys].
  - intros [= ->]. reflexivity.
  - intros Hl. change (join sep (x :: y :: y' :: ys))
      with (x +:+ sep +:+ join sep (y :: y' :: ys)).
    rewrite (IH y) by done.
    change (removelast (y :: y' :: ys)) with (y :: removelast (y' :: ys)).
    cbn [foldr]. by rewrite !append_assoc.
Qed.

Lemma removelast_fmap {A B} (g : A -> B) (xs : list A) :
  removelast (g <$> xs) = g <$> removelast xs.
Proof.
  induction xs as [|x xs IH]; [done |].
  destruct xs as [|x' xs]; [done |].
  change (removelast (g <$> x :: x' :: xs))
    with (g x :: removelast (g <$> x' :: xs)).
  by rewrite IH.
Qed.

Lemma unlines_pieces (xs : list string) :
  foldr (fun x rest => ("./" +:+ x +:+ nl) +:+ rest) "" xs
  = unlines ((fun s => "./" +:+ s) <$> xs).
Proof.
  induction xs as [|x xs IH]; [done |].
  cbn [foldr fmap list_fmap unlines]. rewrite IH.
  unfold unlines. by rewrite !append_assoc.
Qed.

Lemma write_install path text f w :
  write path text (install path f w)
  = (Ok tt, install path {| content := content f +:+ text; mode := mode f |} w).
Proof.
  rewrite (write_run _ _ f), install_install; [done |].
  unfold install. cbn. by rewrite lookup_insert_eq.
Qed.

Lemma write_loop_install path (piece : string -> string) xs f w :
  for_each xs (fun _ x => write path (piece x)) tt (install path f w)
  = (Ok tt,
     install path
       {| content := content f +:+ foldr (fun x rest => piece x +:+ rest) "" xs;
          mode := mode f |} w).
Proof.
  rewrite (write_loop _ _ _ f), install_install; [done |].
  unfold install. cbn. by rewrite lookup_insert_eq.
Qed.

Lemma chmod_install path m f w :
  chmod path m (install path f w)
  = (Ok tt, install path {| content := content f; mode := m |} w).
Proof.
  unfold chmod, install, set_files. cbn.
  by rewrite lookup_insert_eq, insert_insert_eq.
Qed.

Lemma makedirs_run path w : makedirs path w = (Ok tt, with_dir path w).
Proof. reflexivity. Qed.

Lemma open_w_run path w :
  dir_exists w (dirname path) = true ->
  open_w path w
  = (Ok tt,
     install path
       {| content := "";
          mode := match files w !! path with
                  | Some f => mode f
                  | None => Z.land 438 (Z.lnot (umask w))
                  end |} w).
Proof. intros Hdir. unfold open_w. by rewrite Hdir. Qed.

Lemma open_w_missing path w :
  dir_exists w (dirname path) = false ->
  open_w path w = (Err (FileNotFoundError path), w).
Proof. intros Hdir. unfold open_w. by rewrite Hdir. Qed.

(** ** Generation *)

Section Generation.
Context `{PyObjects} `{Dzyswe}.

(** One turn of the loop of [create_scripts]: the lookup in [INCLUDE]
    comes before the directory is made, and the first substitution before
    the file is opened. *)
Lemma create_scripts_body_run args scripts j w :
  create_scripts_body args scripts j w =
    match INCLUDE !! reponame (instance_id j) with
    | None => (Err (KeyError (reponame (instance_id j))), w)
    | Some inc =>
        match format (job_template args) (job_dict args j inc) with
        | Err e => (Err e, with_dir (job_dir args j) w)
        | Ok cmd =>
            (Ok (scripts ++ [job_path args j]),
             install (job_path args j) (job_script args j cmd)
               (with_dir (job_dir args j) w))
        end
    end.
Proof.
  unfold create_scripts_body, lift, getitem.
  unfold mbind at 1. unfold M_bind at 1.
  destruct (INCLUDE !! reponame (instance_id j)) as [inc|]; [| done].
  unfold mbind at 1. unfold M_bind at 1. rewrite makedirs_run.
  unfold mbind at 1. unfold M_bind at 1.
  change (dict_get DEFAULT_COMMAND_TEMPLATES (command args) (command args))
    with (job_template args).
  change ({[ "repo_path" := repo_path j; "commit" := commit j;
             "include_path" := inc; "instance_id" := instance_id j;
             "outdir" := outdir args ]} : gmap string string)
    with (job_dict args j inc).
  change (path_join (outdir args) (instance_id j)) with (job_dir args j).
  change (path_join (job_dir args j) "main.sh") with (job_path args j).
  destruct (format (job_template args) (job_dict args j inc)) as [cmd|e];
    [| done].
  rewrite format_SCRIPT_TEMPLATE.
  unfold mbind at 1. unfold M_bind at 1.
  rewrite open_w_run
    by (unfold job_path; rewrite dir_exists_script; apply dir_exists_with_dir).
  unfold mbind at 1. unfold M_bind at 1. unfold lift.
  unfold mbind at 1. unfold M_bind at 1. rewrite write_install.
  unfold mbind at 1. unfold M_bind at 1. rewrite chmod_install.
  reflexivity.
Qed.

Lemma job_command_eq args j :
  job_command args j =
    match INCLUDE !! reponame (instance_id j) with
    | None => Err (KeyError (reponame (instance_id j)))
    | Some inc => format (job_template args) (job_dict args j inc)
    end.
Proof.
  unfold job_command, getitem.
  by destruct (INCLUDE !! reponame (instance_id j)).
Qed.

Lemma create_scripts_body_ok args scripts j w cmd :
  job_command args j = Ok cmd ->
  create_scripts_body args scripts j w =
    (Ok (scripts ++ [job_path args j]),
     install (job_path args j) (job_script args j cmd)
       (with_dir (job_dir args j) w)).
Proof.
  rewrite job_command_eq, create_scripts_body_run.
  destruct (INCLUDE !! reponame (instance_id j)); [| done].
  by intros ->.
Qed.

Lemma create_scripts_body_err args scripts j w e :
  job_command args j = Err e ->
  exists w', create_scripts_body args scripts j w = (Err e, w')
             /\ files w' = files w /\ stdout w' = stdout w.
Proof.
  rewrite job_command_eq, create_scripts_body_run.
  destruct (INCLUDE !! reponame (instance_id j)).
  - intros ->. by eexists.
  - intros [= <-]. by eexists.
Qed.

(** What a run of the loop leaves behind.  Paths no job maps to are
    as they were; on success every job rendered, and each script path
    holds the script of a job that maps to it. *)
Lemma create_scripts_loop args jobs acc w r w' :
  for_each jobs (create_scripts_body args) acc w = (r, w') ->
  stdout w' = stdout w
  /\ (forall p, p ∉ job_path args <$> jobs -> files w' !! p = files w !! p)
  /\ match r with
     | Ok scripts =>
         scripts = acc ++ (job_path args <$> jobs)
         /\ Forall (fun j => exists cmd, job_command args j = Ok cmd) jobs
         /\ forall p, p ∈ job_path args <$> jobs ->
              exists j cmd, j ∈ jobs /\ job_path args j = p
                /\ job_command args j = Ok cmd
                /\ files w' !! p = Some (job_script args j cmd)
     | Err e =>
         exists pre j post, jobs = pre ++ j :: post
           /\ Forall (fun j => exists cmd, job_command args j = Ok cmd) pre
           /\ job_command args j = Err e
     end.
Proof.
  revert acc w. induction jobs as [|j js IH]; intros acc w.
  - intros [= <- <-]. rewrite app_nil_r. repeat split; try done.
    intros p Hp. by apply elem_of_nil in Hp.
  - cbn [for_each]. unfold mbind at 1. unfold M_bind at 1.
    destruct (job_command args j) as [cmd|e] eqn:Hcmd.
    + rewrite (create_scripts_body_ok _ _ _ _ cmd) by done.
      intros (Hout & Hframe & Hr)%IH. split; [done |]. split.
      { intros p [Hne Hp]%not_elem_of_cons. rewrite Hframe by done.
        cbn. by rewrite lookup_insert_ne. }
      destruct r as [scripts|e].
      * destruct Hr as (-> & Hall & Hfiles). split_and!.
        { by rewrite <- app_assoc. }
        { constructor; [by exists cmd | done]. }
        intros p Hp. destruct (decide (p ∈ job_path args <$> js)) as [Hin|Hout'].
        { destruct (Hfiles p Hin) as (j' & cmd' & ? & ? & ? & ?).
          exists j', cmd'. split_and!; try done. by apply list_elem_of_further. }
        apply elem_of_cons in Hp as [-> | Hp]; [| done].
        exists j, cmd. split_and!; try done; [apply list_elem_of_here |].
        rewrite Hframe by done. cbn. by rewrite lookup_insert_eq.
      * destruct Hr as (pre & j' & post & -> & Hpre & Hj').
        exists (j :: pre), j', post. split_and!; try done.
        constructor; [by exists cmd | done].
    + destruct (create_scripts_body_err args acc j w e Hcmd)
        as (w1 & -> & Hfiles & Hout).
      intros [= <- <-]. split_and!; try done.
      { intros p _. by rewrite Hfiles. }
      exists [], j, js. by split_and!.
Qed.

(** Jobs that all render are all generated. *)
Lemma create_scripts_loop_ok args jobs acc w :
  Forall (fun j => exists cmd, job_command args j = Ok cmd) jobs ->
  exists w', for_each jobs (create_scripts_body args) acc w
             = (Ok (acc ++ (job_path args <$> jobs)), w').
Proof.
  intros Hall. revert acc w.
  induction Hall as [|j js [cmd Hcmd] _ IH]; intros acc w.
  - exists w. by rewrite app_nil_r.
  - cbn [for_each]. unfold mbind at 1. unfold M_bind at 1.
    rewrite (create_scripts_body_ok _ _ _ _ cmd) by done.
    edestruct IH as [w' ->]. exists w'. by rewrite <- app_assoc.
Qed.

(** The loop reads [args] for the output directory and the command
    only. *)
Lemma create_scripts_body_args args1 args2 :
  outdir args1 = outdir args2 -> command args1 = command args2 ->
  create_scripts_body args1 = create_scripts_body args2.
Proof. unfold create_scripts_body. by intros -> ->. Qed.

(** Two runs of the loop over the same jobs, in any two worlds: the
    outcomes agree, and so do the files at every path on which the worlds
    agreed or to which a job maps. *)
Lemma create_scripts_loop_agree args jobs acc w1 w2 :
  (for_each jobs (create_scripts_body args) acc w1).1
  = (for_each jobs (create_scripts_body args) acc w2).1
  /\ forall scripts p,
       (for_each jobs (create_scripts_body args) acc w1).1 = Ok scripts ->
       p ∈ job_path args <$> jobs \/ files w1 !! p = files w2 !! p ->
       files (for_each jobs (create_scripts_body args) acc w1).2 !! p
       = files (for_each jobs (create_scripts_body args) acc w2).2 !! p.
Proof.
  revert acc w1 w2. induction jobs as [|j js IH]; intros acc w1 w2.
  - split; [done |]. intros scripts p _ [Hp|Hp]; [| done].
    by apply elem_of_nil in Hp.
  - cbn [for_each]. unfold mbind, M_bind.
    destruct (job_command args j) as [cmd|e] eqn:Hcmd.
    + rewrite !(create_scripts_body_ok _ _ _ _ cmd) by done.
      destruct (IH (acc ++ [job_path args j])
                  (install (job_path args j) (job_script args j cmd)
                     (with_dir (job_dir args j) w1))
                  (install (job_path args j) (job_script args j cmd)
                     (with_dir (job_dir args j) w2))) as [Hres Hfiles].
      split; [done |]. intros scripts p Hok Hp.
      apply (Hfiles scripts p Hok).
      rewrite fmap_cons, elem_of_cons in Hp.
      destruct (decide (p = job_path args j)) as [->|Hne].
      * right. cbn. by rewrite !lookup_insert_eq.
      * destruct Hp as [[Hp|Hp]|Hp]; [done | by left |].
        right. cbn. by rewrite !lookup_insert_ne.
    + destruct (create_scripts_body_err args acc j w1 e Hcmd)
        as (w1' & -> & _).
      destruct (create_scripts_body_err args acc j w2 e Hcmd)
        as (w2' & -> & _).
      split; [done |]. by intros scripts p [=].
Qed.

End Generation.

(** ** The aggregate script *)

Section Aggregate.
Context `{PyObjects} `{Dzyswe}.

(** Without the output directory the aggregator stops at [open]. *)
Lemma create_top_script_missing args scripts w :
  dir_exists w (outdir args) = false ->
  create_top_script args scripts w
  = (Err (FileNotFoundError (outdir args +:+ "/run_all.sh")), w).
Proof.
  intros Hdir. unfold create_top_script.
  unfold mbind at 1. unfold M_bind at 1.
  by rewrite open_w_missing by (by rewrite dir_exists_top).
Qed.

Lemma create_top_script_sequential args scripts w :
  parallel args = false ->
  dir_exists w (outdir args) = true ->
  create_top_script args scripts w
  = (Ok tt,
     with_top_script args
       (unlines ("#!/bin/bash" :: "set -e"
                 :: ((fun s => "./" +:+ s) <$> scripts))) w).
Proof.
  intros Hseq Hdir. unfold create_top_script. rewrite Hseq.
  set (top := outdir args +:+ "/run_all.sh").
  unfold mbind at 1. unfold M_bind at 1.
  rewrite open_w_run by (unfold top; by rewrite dir_exists_top).
  unfold mbind at 1. unfold M_bind at 1. rewrite write_install.
  unfold mbind at 1. unfold M_bind at 1. rewrite write_loop_install.
  unfold mbind at 1. unfold M_bind at 1. rewrite chmod_install.
  unfold print, install, set_files, with_top_script.
  cbn [files dirs stdout umask content mode].
  do 3 f_equal. f_equal.
  rewrite unlines_pieces. reflexivity.
Qed.

Lemma create_top_script_parallel args scripts l w :
  parallel args = true ->
  last scripts = Some l ->
  dir_exists w (outdir args) = true ->
  create_top_script args scripts w
  = (Ok tt,
     with_top_script args
       (unlines [ "#!/bin/bash"; "set -e";
                  "echo Executing in parallel mode...";
                  join (" \" +:+ nl)
                    ("parallel :::" :: ((fun s => "./" +:+ s) <$> scripts)) ])
       w).
Proof.
  intros Hpar Hlast Hdir. unfold create_top_script. rewrite Hpar.
  set (top := outdir args +:+ "/run_all.sh").
  unfold mbind at 1. unfold M_bind at 1.
  rewrite open_w_run by (unfold top; by rewrite dir_exists_top).
  unfold mbind at 1. unfold M_bind at 1. rewrite write_install.
  unfold mbind at 1. unfold M_bind at 1.
  unfold mbind at 1. unfold M_bind at 1. rewrite write_install.
  unfold mbind at 1. unfold M_bind at 1. rewrite write_install.
  unfold mbind at 1. unfold M_bind at 1. rewrite write_loop_install.
  unfold mbind at 1. unfold M_bind at 1.
  unfold lift, last_item. rewrite Hlast. rewrite write_install.
  unfold mbind at 1. unfold M_bind at 1. rewrite chmod_install.
  unfold print, install, set_files, with_top_script.
  cbn [files dirs stdout umask content mode].
  do 3 f_equal. f_equal.
  rewrite (join_cons_last _ _ _ ("./" +:+ l)).
  2:{ rewrite fmap_last. by rewrite Hlast. }
  rewrite removelast_fmap, foldr_fmap.
  unfold unlines. cbn [foldr]. by rewrite !append_assoc.
Qed.

(** With the output directory and no script, parallel mode writes the
    head of [run_all.sh] and stops at [scripts[-1]]. *)
Lemma create_top_script_parallel_nil args w :
  parallel args = true ->
  dir_exists w (outdir args) = true ->
  create_top_script args [] w
  = (Err IndexError,
     install (outdir args +:+ "/run_all.sh")
       {| content := unlines [ "#!/bin/bash"; "set -e";
                               "echo Executing in parallel mode..." ]
                     +:+ "parallel ::: \" +:+ nl;
          mode := match files w !! (outdir args +:+ "/run_all.sh") with
                  | Some f => mode f
                  | None => Z.land 438 (Z.lnot (umask w))
                  end |} w).
Proof.
  intros Hpar Hdir. unfold create_top_script. rewrite Hpar.
  set (top := outdir args +:+ "/run_all.sh").
  unfold mbind at 1. unfold M_bind at 1.
  rewrite open_w_run by (unfold top; by rewrite dir_exists_top).
  unfold mbind at 1. unfold M_bind at 1. rewrite write_install.
  unfold mbind at 1. unfold M_bind at 1.
  unfold mbind at 1. unfold M_bind at 1. rewrite write_install.
  unfold mbind at 1. unfold M_bind at 1. rewrite write_install.
  cbn [removelast for_each]. unfold mbind, M_bind, mret, M_ret, lift.
  cbn [last_item last content mode]. reflexivity.
Qed.

End Aggregate.

(** ** Templates that cannot be resolved *)

Section Unresolved.
Context `{PyObjects}.

Lemma get_field_object_unresolved kwargs name :
  kwargs !! first_part name = None ->
  exists e, get_field_object kwargs name = Err e.
Proof.
  unfold get_field_object, first_part.
  destruct (field_name_split name) as [first rest].
  cbn [fst]. intros Hk. unfold getitem. rewrite Hk.
  destruct (get_integer first) as [[i|]|e]; destruct first; by eexists.
Qed.

Lemma get_field_object_KeyError kwargs name :
  named (first_part name) = true ->
  kwargs !! first_part name = None ->
  get_field_object kwargs name = Err (KeyError (first_part name)).
Proof.
  unfold get_field_object, first_part, named.
  destruct (field_name_split name) as [first rest].
  cbn [fst]. intros Hn Hk. unfold getitem. rewrite Hk.
  destruct first; [done |].
  by destruct (get_integer _) as [[i|]|e].
Qed.

Lemma output_markup_unresolved expand kwargs name conversion spec expanding :
  kwargs !! first_part name = None ->
  exists e, output_markup expand kwargs name conversion spec expanding
            = Err e.
Proof.
  intros [e He]%get_field_object_unresolved.
  exists e. unfold output_markup. by rewrite He.
Qed.

(** A field that fails makes the whole template fail: with its own
    error, or with that of something to its left. *)
Lemma do_markup_fails expand kwargs items name conversion spec expanding :
  Field name conversion spec expanding ∈ items ->
  (exists e, output_markup expand kwargs name conversion spec expanding
             = Err e) ->
  exists e, do_markup expand kwargs items = Err e.
Proof.
  intros Hin [e He]. induction items as [|x items IH].
  - by apply elem_of_nil in Hin.
  - apply elem_of_cons in Hin as [<- | Hin].
    + exists e. cbn. by rewrite He.
    + destruct (IH Hin) as [e' He']. destruct x as [text|n c s x|]; cbn.
      * rewrite He'. by eexists.
      * destruct (output_markup expand kwargs n c s x); cbn; [| by eexists].
        rewrite He'. by eexists.
      * by eexists.
Qed.

Lemma build_string_unresolved template k :
  references template k ->
  forall kwargs depth, kwargs !! k = None ->
    exists e, build_string depth kwargs template = Err e.
Proof.
  induction 1 as [t name conversion spec expanding Hin
                 |t name conversion spec k Hin Hspec IH];
    intros kwargs [|depth] Hk; try by eexists.
  - cbn. eapply do_markup_fails; [done |].
    by apply output_markup_unresolved.
  - cbn. eapply do_markup_fails; [done |].
    unfold output_markup.
    destruct (get_field_object kwargs name); cbn; [| by eexists].
    destruct (if Ascii.eqb conversion no_conversion then _ else _); cbn;
      [| by eexists].
    destruct (IH kwargs depth Hk) as [e ->]. by eexists.
Qed.

Lemma do_markup_first_unresolved expand kwargs pre name conversion spec
    expanding post text :
  do_markup expand kwargs pre = Ok text ->
  named (first_part name) = true ->
  kwargs !! first_part name = None ->
  do_markup expand kwargs (pre ++ Field name conversion spec expanding :: post)
  = Err (KeyError (first_part name)).
Proof.
  intros Hpre Hn Hk. rewrite do_markup_app, Hpre. cbn.
  unfold output_markup. by rewrite get_field_object_KeyError.
Qed.

End Unresolved.

(** ** Identifiers and paths of jobs *)

Section JobPaths.
Context `{PyObjects} `{Dzyswe}.

Lemma resolve_instance_id i j : resolve i = Some j -> instance_id j = i.
Proof.
  unfold resolve. destruct (sweall !! i); cbn; [| done]. by intros [= <-].
Qed.

Lemma resolved_paths args ids jobs :
  Forall2 (fun i j => resolve i = Some j) ids jobs ->
  job_path args <$> jobs
  = (fun i => path_join (path_join (outdir args) i) "main.sh") <$> ids.
Proof.
  induction 1 as [|i j ids jobs Hi _ IH]; [done |].
  rewrite !fmap_cons, IH. unfold job_path at 1, job_dir.
  by rewrite (resolve_instance_id i j).
Qed.

End JobPaths.

(** * The claims *)

(** ** Resolution errors *)

Section Resolution.
Context `{PyObjects} `{Dzyswe}.

(** C1, as the program has it.  An identifier that is absent from the
    catalog makes [main] raise [KeyError] of the first such identifier
    with the world untouched: the catalog is read for every identifier
    before generation begins.  The table [INCLUDE] is read by the
    generator, job by job: when every identifier is in the catalog and the
    family of a job is absent from [INCLUDE], [main] runs the generator on
    the jobs before that one, keeps what they wrote, and then raises
    [KeyError] of the family (or stops earlier with the error of an
    earlier job); nothing is created for that job or a later one, and no
    aggregate script is written. *)
Theorem resolution_errors (args : Namespace) (w : world) :
  (forall pre bad post,
     instance_ids args = pre ++ bad :: post ->
     Forall (fun i => is_Some (sweall !! i)) pre ->
     sweall !! bad = None ->
     main args w = (Err (KeyError bad), w))
  /\ (forall jobs pre bad post,
        Forall2 (fun i j => resolve i = Some j) (instance_ids args) jobs ->
        jobs = pre ++ bad :: post ->
        INCLUDE !! reponame (instance_id bad) = None ->
        main args w =
          match create_scripts args pre w with
          | (Ok _, w1) => (Err (KeyError (reponame (instance_id bad))), w1)
          | (Err e, w1) => (Err e, w1)
          end).
Proof.
  split.
  - intros pre bad post Hids Hpre Hbad. unfold main, mbind, M_bind.
    by rewrite (compute_jobs_missing args pre bad post).
  - intros jobs pre bad post Hjobs -> Hbad. unfold main, mbind, M_bind.
    rewrite (compute_jobs_ok args _ w Hjobs).
    unfold create_scripts. rewrite for_each_app.
    destruct (for_each pre (create_scripts_body args) [] w)
      as [[scripts|e] w1]; [| done].
    cbn [for_each]. unfold mbind, M_bind.
    by rewrite create_scripts_body_run, Hbad.
Qed.

End Resolution.

(** ** The order of the substitutions *)

Section Substitution.
Context `{PyObjects} `{Dzyswe}.

(** C2.  For a job whose family is in [INCLUDE] and whose command
    template formats against the dictionary of the five keys
    ([repo_path], [commit], [include_path], [instance_id], [outdir]) to
    [cmd]: the script written is the skeleton formatted against that
    dictionary with [cmd] under the key [command]; [cmd] is a value there
    and is not read as a template again: the last line of the script is
    [( cmd ) > outdir/instance_id/log.txt 2>&1].  Where the command
    template has the field [{commit}], [cmd] has the job's commit hash
    in its place, between the renderings of the template's two sides. *)
Theorem two_phase_substitution (args : Namespace) (j : job) (w : world)
    (inc cmd : string) :
  INCLUDE !! reponame (instance_id j) = Some inc ->
  format (job_template args) (job_dict args j inc) = Ok cmd ->
  (exists w' f,
     create_scripts args [j] w = (Ok [job_path args j], w')
     /\ files w' !! job_path args j = Some f
     /\ format SCRIPT_TEMPLATE (<[ "command" := cmd ]> (job_dict args j inc))
        = Ok (content f)
     /\ content f = unlines (script_lines (outdir args) (instance_id j)
                               (repo_path j) (commit j) cmd))
  /\ last (script_lines (outdir args) (instance_id j) (repo_path j)
             (commit j) cmd)
     = Some ("( " +:+ cmd +:+ " ) > " +:+ outdir args +:+ "/"
             +:+ instance_id j +:+ "/log.txt 2>&1")
  /\ forall pre post,
       markup_iter (job_template args)
       = pre ++ Field "commit" no_conversion "" false :: post ->
       exists a b,
         do_markup (build_string 1 (job_dict args j inc))
           (job_dict args j inc) pre = Ok a
         /\ do_markup (build_string 1 (job_dict args j inc))
              (job_dict args j inc) post = Ok b
         /\ cmd = a +:+ commit j +:+ b.
Proof.
  intros Hinc Hfmt. split; [| split].
  2:{ unfold script_lines. cbn [last]. by rewrite !append_assoc. }
  - exists (install (job_path args j) (job_script args j cmd)
              (with_dir (job_dir args j) w)), (job_script args j cmd).
    split_and!.
    + unfold create_scripts. cbn [for_each]. unfold mbind, M_bind.
      rewrite create_scripts_body_run, Hinc, Hfmt. done.
    + cbn. by rewrite lookup_insert_eq.
    + apply format_SCRIPT_TEMPLATE.
    + done.
  - intros pre post Hparse. unfold format in Hfmt. cbn [build_string] in Hfmt.
    rewrite Hparse, do_markup_app in Hfmt.
    destruct (do_markup _ _ pre) as [a|e]; [| done].
    cbn [mbind result_bind do_markup] in Hfmt.
    rewrite output_markup_plain in Hfmt by (by apply plain_name_ascii).
    unfold getitem in Hfmt. rewrite job_dict_lookup in Hfmt.
    cbn in Hfmt.
    destruct (do_markup _ _ post) as [b|e]; [| done].
    cbn in Hfmt. injection Hfmt as <-. by exists a, b.
Qed.

(** C3, as the program has it.  When the command template references a
    name that is not a key of the dictionary, in a field or in the format
    specification of one, generation fails at the first job:
    [create_scripts] raises, and the files are as they were before the
    call, so that no script of that job is written, in part or in full.
    The error is the one of whatever fails first.  It is [KeyError] of the
    name when the field of the name is the first thing to fail: the name is
    looked up by keyword (it is not empty and not a decimal number), the
    job's family is in [INCLUDE], and what stands to the left of the field
    in the template renders. *)
Theorem unresolvable_placeholder (args : Namespace) (j : job)
    (more : list job) (w : world) (k : string) :
  references (job_template args) k ->
  k ∉ format_keys ->
  exists e w',
    create_scripts args (j :: more) w = (Err e, w')
    /\ files w' = files w
    /\ forall inc pre name conversion spec expanding post text,
         INCLUDE !! reponame (instance_id j) = Some inc ->
         markup_iter (job_template args)
         = pre ++ Field name conversion spec expanding :: post ->
         do_markup (build_string 1 (job_dict args j inc))
           (job_dict args j inc) pre = Ok text ->
         first_part name = k ->
         named k = true ->
         e = KeyError k.
Proof.
  intros Href Hk.
  assert (exists e, job_command args j = Err e) as [e He].
  { rewrite job_command_eq.
    destruct (INCLUDE !! reponame (instance_id j)) as [inc|]; [| by eexists].
    apply (build_string_unresolved _ k Href).
    by apply job_dict_lookup_None. }
  destruct (create_scripts_body_err args [] j w e He) as (w' & Hrun & Hf & _).
  exists e, w'. split_and!; [| done |].
  - unfold create_scripts. cbn [for_each]. unfold mbind, M_bind.
    by rewrite Hrun.
  - intros inc pre name conversion spec expanding post text
           Hinc Hparse Hpre <- Hnamed.
    rewrite job_command_eq, Hinc in He. unfold format in He.
    cbn [build_string] in He. rewrite Hparse in He.
    rewrite (do_markup_first_unresolved _ _ _ _ _ _ _ _ text) in He.
    + by injection He as <-.
    + done.
    + done.
    + by apply job_dict_lookup_None.
Qed.

(** C9.  Two runs of [create_scripts] over the same jobs (identifiers,
    repository paths, commits), with the same output directory and the
    same command, started in any two worlds: the outcomes are equal, and
    when they are a list of scripts every script path holds the same file
    after either run. *)
Theorem generation_is_deterministic (args1 args2 : Namespace)
    (jobs : list job) (w1 w2 : world) :
  outdir args1 = outdir args2 ->
  command args1 = command args2 ->
  (create_scripts args1 jobs w1).1 = (create_scripts args2 jobs w2).1
  /\ forall scripts p,
       (create_scripts args1 jobs w1).1 = Ok scripts ->
       p ∈ scripts ->
       files (create_scripts args1 jobs w1).2 !! p
       = files (create_scripts args2 jobs w2).2 !! p.
Proof.
  intros Ho Hc. unfold create_scripts.
  rewrite <- (create_scripts_body_args args1 args2 Ho Hc).
  destruct (create_scripts_loop_agree args1 jobs [] w1 w2) as [Hres Hfiles].
  split; [done |]. intros scripts p Hok Hp.
  apply (Hfiles scripts p Hok). left.
  destruct (for_each jobs (create_scripts_body args1) [] w1)
    as [r w1'] eqn:Hrun.
  cbn in Hok. subst r.
  destruct (create_scripts_loop _ _ _ _ _ _ Hrun) as (_ & _ & Hs & _).
  by rewrite Hs in Hp.
Qed.

End Substitution.

(** ** The command template registry *)

Section Registry.
Context `{PyObjects} `{Dzyswe}.

(** C4.  The template that [create_scripts] substitutes for a job is the
    registered template when the command of the command line is one of the
    registered short names, [pylsp] and [jedi], and the command itself,
    unchanged, for every other string.  No string is rejected by the
    lookup: for a job whose family is in [INCLUDE], generation writes the
    script with the rendering of that template when it formats, and fails
    with the error of the formatter, and with no other, when it does
    not. *)
Theorem template_registry_falls_through (args : Namespace) (j : job)
    (w : world) (inc : string) :
  INCLUDE !! reponame (instance_id j) = Some inc ->
  match format (if decide (command args = "pylsp") then pylsp_template
                else if decide (command args = "jedi") then jedi_template
                else command args)
          (job_dict args j inc) with
  | Ok cmd =>
      exists w',
        create_scripts args [j] w = (Ok [job_path args j], w')
        /\ files w' !! job_path args j = Some (job_script args j cmd)
  | Err e =>
      exists w', create_scripts args [j] w = (Err e, w')
  end.
Proof.
  intros Hinc.
  assert (job_template args
          = if decide (command args = "pylsp") then pylsp_template
            else if decide (command args = "jedi") then jedi_template
            else command args) as <-.
  { unfold job_template, dict_get, DEFAULT_COMMAND_TEMPLATES.
    destruct (decide (command args = "pylsp")) as [-> | Hpylsp];
      [by rewrite lookup_insert_eq |].
    rewrite lookup_insert_ne by done.
    destruct (decide (command args = "jedi")) as [-> | Hjedi];
      [by rewrite lookup_singleton_eq |].
    by rewrite lookup_singleton_ne. }
  unfold create_scripts. cbn [for_each]. unfold mbind, M_bind.
  rewrite create_scripts_body_run, Hinc.
  destruct (format (job_template args) (job_dict args j inc)) as [cmd|e].
  - eexists. split; [done |]. cbn. by rewrite lookup_insert_eq.
  - by eexists.
Qed.

End Registry.

(** ** Per-job scripts *)

Section Scripts.
Context `{PyObjects} `{Dzyswe}.

(** C5.  After a run of [create_scripts] that returns, every script path
    holds the script of a job of the batch mapped to that path, and its
    text is these lines in this order: the shebang; the fail-fast
    directive [set -e]; a comment; the cache directory set to the job's
    own [outdir/instance_id]; the removal of [outdir/instance_id/repo] and
    a [git clone] of the job's repository path into it; [cd] there and
    [git checkout] of the job's commit; [cd -]; the echo that names the
    log; the job's command in a subshell with standard output redirected
    to [outdir/instance_id/log.txt] and standard error to standard
    output. *)
Theorem isolation_script_text (args : Namespace) (jobs : list job)
    (w : world) (scripts : list string) (w' : world) :
  create_scripts args jobs w = (Ok scripts, w') ->
  forall p, p ∈ scripts ->
    exists j cmd f,
      j ∈ jobs /\ job_path args j = p /\ job_command args j = Ok cmd
      /\ files w' !! p = Some f
      /\ let d := outdir args +:+ "/" +:+ instance_id j in
         content f = unlines
           [ "#!/bin/bash";
             "set -e";
             "# jedi caching";
             "export XDG_CACHE_HOME=" +:+ d;
             "rm -rf " +:+ d +:+ "/repo";
             "git clone " +:+ repo_path j +:+ " " +:+ d +:+ "/repo";
             "cd " +:+ d +:+ "/repo";
             "git checkout " +:+ commit j;
             "cd -";
             "echo Logs for " +:+ instance_id j +:+ " is at " +:+ d
               +:+ "/log.txt";
             "( " +:+ cmd +:+ " ) > " +:+ d +:+ "/log.txt 2>&1" ].
Proof.
  intros Hgen p Hp.
  destruct (create_scripts_loop _ _ _ _ _ _ Hgen) as (_ & _ & -> & _ & Hfiles).
  destruct (Hfiles p Hp) as (j & cmd & Hj & Hpath & Hcmd & Hf).
  exists j, cmd, (job_script args j cmd). by split_and!.
Qed.

(** C6.  When every identifier of the command line is in the catalog and
    its job renders (its family is in [INCLUDE] and the command template
    formats), planning and generation return one script path per
    identifier, in the order of the identifiers and with duplicates kept:
    the path of identifier [i] is [os.path.join(outdir, i, "main.sh")],
    which is [outdir/i/main.sh] for an output directory and an identifier
    of the usual shape.  Every such path then holds a script of a job
    mapped to it, with mode 0o755. *)
Theorem one_script_per_identifier (args : Namespace) (w : world) :
  (forall i, i ∈ instance_ids args ->
     exists j cmd, resolve i = Some j /\ job_command args j = Ok cmd) ->
  exists jobs scripts w',
    compute_jobs args w = (Ok jobs, w)
    /\ create_scripts args jobs w = (Ok scripts, w')
    /\ scripts = (fun i => path_join (path_join (outdir args) i) "main.sh")
                   <$> instance_ids args
    /\ length scripts = length (instance_ids args)
    /\ (forall p, p ∈ scripts ->
          exists j cmd, j ∈ jobs /\ job_path args j = p
            /\ job_command args j = Ok cmd
            /\ files w' !! p = Some (job_script args j cmd)
            /\ mode (job_script args j cmd) = rwxr_xr_x)
    /\ (outdir args <> "" -> endswith_sep (outdir args) = false ->
        forall i, plain_component i = true ->
          path_join (path_join (outdir args) i) "main.sh"
          = outdir args +:+ "/" +:+ i +:+ "/main.sh").
Proof.
  intros Hvalid.
  assert (exists jobs,
    Forall2 (fun i j => resolve i = Some j) (instance_ids args) jobs
    /\ Forall (fun j => exists cmd, job_command args j = Ok cmd) jobs)
    as (jobs & Hjobs & Hrender).
  { induction (instance_ids args) as [|i ids IH]; [by exists [] |].
    destruct IH as (jobs & ? & ?).
    { intros i' Hi'. apply Hvalid. by apply list_elem_of_further. }
    destruct (Hvalid i) as (j & cmd & ? & ?); [apply list_elem_of_here |].
    exists (j :: jobs). split; constructor; eauto. }
  destruct (create_scripts_loop_ok args jobs [] w Hrender) as [w' Hgen].
  cbn [app] in Hgen.
  exists jobs, (job_path args <$> jobs), w'.
  split; [by apply compute_jobs_ok |]. split; [done |].
  split; [by apply resolved_paths |].
  split; [rewrite length_fmap; symmetry; by eapply Forall2_length |].
  split.
  - intros p Hp.
    destruct (create_scripts_loop _ _ _ _ _ _ Hgen) as (_ & _ & _ & _ & Hf).
    destruct (Hf p Hp) as (j & cmd & ? & ? & ? & ?).
    exists j, cmd. by split_and!.
  - intros Ho He i Hi. by apply script_path_plain.
Qed.

End Scripts.

(** ** Aggregation *)

(** C7.  In sequential mode, for every list of script paths: the
    aggregator returns when the output directory is there, and whenever it
    returns [outdir/run_all.sh] holds the shebang, the fail-fast directive
    [set -e] and one line [./path] per script, in the order of the list, its
    mode is 0o755 (all three execute bits set), and its path is printed. *)
Theorem sequential_aggregate_script (args : Namespace) (scripts : list string)
    (w : world) :
  parallel args = false ->
  (dir_exists w (outdir args) = true ->
   exists w', create_top_script args scripts w = (Ok tt, w'))
  /\ forall w',
       create_top_script args scripts w = (Ok tt, w') ->
       files w' !! (outdir args +:+ "/run_all.sh")
       = Some {| content :=
                   unlines ("#!/bin/bash" :: "set -e"
                            :: ((fun s => "./" +:+ s) <$> scripts));
                 mode := rwxr_xr_x |}
       /\ Z.land rwxr_xr_x 73 = 73
       /\ stdout w'
          = stdout w ++ ["To run all jobs, execute: ./" +:+ outdir args
                         +:+ "/run_all.sh"].
Proof.
  intros Hseq. split.
  - intros Hdir. eexists. by apply create_top_script_sequential.
  - intros w'. destruct (dir_exists w (outdir args)) eqn:Hdir.
    + rewrite create_top_script_sequential by done. intros [= <-].
      unfold with_top_script. cbn [files stdout].
      by rewrite lookup_insert_eq.
    + by rewrite create_top_script_missing.
Qed.

(** C8.  In parallel mode, for every list of script paths that is not
    empty: the aggregator returns when the output directory is there, and
    whenever it returns [outdir/run_all.sh] holds the shebang, the
    fail-fast directive, an announcement, and a single command: the words
    [parallel :::] and then [./path] for every script in the order of the
    list, each on a continuation line, with no option between them. *)
Theorem parallel_aggregate_script (args : Namespace) (scripts : list string)
    (w : world) :
  parallel args = true ->
  scripts <> [] ->
  (dir_exists w (outdir args) = true ->
   exists w', create_top_script args scripts w = (Ok tt, w'))
  /\ forall w',
       create_top_script args scripts w = (Ok tt, w') ->
       files w' !! (outdir args +:+ "/run_all.sh")
       = Some {| content :=
                   unlines [ "#!/bin/bash"; "set -e";
                             "echo Executing in parallel mode...";
                             join (" \" +:+ nl)
                               ("parallel :::"
                                :: ((fun s => "./" +:+ s) <$> scripts)) ];
                 mode := rwxr_xr_x |}
       /\ stdout w'
          = stdout w ++ ["To run all jobs, execute: ./" +:+ outdir args
                         +:+ "/run_all.sh"].
Proof.
  intros Hpar [l Hl]%last_is_Some. split.
  - intros Hdir. eexists. by apply (create_top_script_parallel _ _ l).
  - intros w'. destruct (dir_exists w (outdir args)) eqn:Hdir.
    + rewrite (create_top_script_parallel _ _ l) by done. intros [= <-].
      unfold with_top_script. cbn [files stdout].
      by rewrite lookup_insert_eq.
    + by rewrite create_top_script_missing.
Qed.


(** * Further properties of the program *)

(** ** Suffixes of paths *)

Lemma list_ascii_of_string_app (a b : string) :
  list_ascii_of_string (a +:+ b)
  = list_ascii_of_string a ++ list_ascii_of_string b.
Proof. induction a as [|c a IH]; [done |]. cbn. by rewrite IH. Qed.



(** A name that ends in [main.sh] is not one that ends in
    [/run_all.sh]. *)
Lemma main_sh_not_run_all (a b : string) :
  a +:+ "main.sh" <> b +:+ "/run_all.sh".
Proof.
  change "main.sh" with ("mai" +:+ "n.sh").
  change "/run_all.sh" with ("/run_al" +:+ "l.sh").
  rewrite <- !append_assoc.
  intros Heq%(f_equal list_ascii_of_string).
  rewrite !list_ascii_of_string_app in Heq.
  by apply app_inj_2 in Heq as [_ Heq].
Qed.

Lemma script_path_not_top (dir o : string) :
  path_join dir "main.sh" <> o +:+ "/run_all.sh".
Proof.
  unfold path_join. cbn [startswith_sep Ascii.eqb].
  destruct (String.eqb dir "" || endswith_sep dir)%bool.
  - apply main_sh_not_run_all.
  - change (dir +:+ "/" +:+ "main.sh") with (dir +:+ "/" +:+ "main.sh").
    rewrite <- append_assoc. apply main_sh_not_run_all.
Qed.

(** ** Literal text in a template *)

Lemma scan_escape_braces (literal s : string) :
  scan (InText literal) (escape_braces s) = emit_literal (literal +:+ s).
Proof.
  revert literal. induction s as [|c s IH]; intros literal.
  - cbn. by rewrite append_nil_r.
  - cbn [escape_braces].
    destruct (Ascii.eqb_spec c "{") as [-> | Hopen].
    + cbn. rewrite IH. unfold snoc. by rewrite append_assoc.
    + destruct (Ascii.eqb_spec c "}") as [-> | Hclose].
      * cbn. rewrite IH. unfold snoc. by rewrite append_assoc.
      * cbn [orb scan step].
        apply Ascii.eqb_neq in Hopen, Hclose. rewrite Hopen, Hclose.
        cbn [app]. rewrite IH. unfold snoc. by rewrite append_assoc.
Qed.

Lemma escape_braces_brace_free (s : string) :
  brace_free s = true -> escape_braces s = s.
Proof.
  induction s as [|c s IH]; [done |]. cbn.
  destruct (Ascii.eqb c "{" || Ascii.eqb c "}")%bool; [done |].
  cbn. intros Hs. by rewrite IH.
Qed.

Lemma format_escape_braces `{PyObjects} (s : string)
    (kwargs : gmap string string) :
  format (escape_braces s) kwargs = Ok s.
Proof.
  unfold format, build_string, markup_iter. rewrite scan_escape_braces.
  cbn [String.append]. destruct s; [done |].
  cbn. by rewrite append_nil_r.
Qed.

(** ** What generation leaves alone *)

Lemma world_eq (w1 w2 : world) :
  files w1 = files w2 -> dirs w1 = dirs w2 -> stdout w1 = stdout w2 ->
  umask w1 = umask w2 -> w1 = w2.
Proof. destruct w1, w2. cbn. by intros -> -> -> ->. Qed.

#[local] Set Warnings "-clear-no-such-hyp".

Section Frame.
Context `{PyObjects} `{Dzyswe}.

Lemma create_scripts_loop_frame args jobs acc w r w' :
  for_each jobs (create_scripts_body args) acc w = (r, w') ->
  umask w' = umask w
  /\ dirs w ⊆ dirs w'
  /\ dirs w' ⊆ job_dirs args jobs ∪ dirs w
  /\ (forall p, is_Some (files w !! p) -> is_Some (files w' !! p))
  /\ (forall scripts, r = Ok scripts ->
        dirs w' = job_dirs args jobs ∪ dirs w).
Proof.
  revert acc w. induction jobs as [|j js IH]; intros acc w.
  - intros [= <- <-]. cbn [job_dirs]. split_and!; try done; set_solver.
  - cbn [for_each job_dirs]. unfold mbind at 1. unfold M_bind at 1.
    rewrite create_scripts_body_run.
    destruct (INCLUDE !! reponame (instance_id j)) as [inc|].
    2:{ intros [= <- <-]. split_and!; try done; set_solver. }
    destruct (format (job_template args) (job_dict args j inc)) as [cmd|e].
    2:{ intros [= <- <-]. cbn [with_dir dirs umask files].
        split_and!; try done; set_solver. }
    intros (Hum & Hsub & Hsup & Hkeep & Hdirs)%IH.
    cbn [install set_files with_dir dirs umask files] in Hum, Hsub, Hsup,
      Hkeep, Hdirs.
    split_and!; [done | set_solver | set_solver | |].
    + intros p Hp. apply Hkeep.
      destruct (decide (job_path args j = p)) as [<- | Hne].
      * rewrite lookup_insert_eq. by eexists.
      * by rewrite lookup_insert_ne.
    + intros scripts Hr. rewrite (Hdirs scripts Hr). set_solver.
Qed.

Lemma job_paths_not_top args (jobs : list job) :
  outdir args +:+ "/run_all.sh" ∉ job_path args <$> jobs.
Proof.
  intros (j & Heq & _)%list_elem_of_fmap.
  symmetry in Heq. by apply script_path_not_top in Heq.
Qed.

End Frame.

(** ** The aggregator, whatever its outcome *)

Lemma for_each_write_frame path (piece : string -> string) xs w :
  exists w',
    for_each xs (fun _ x => write path (piece x)) tt w = (Ok tt, w')
    /\ dirs w' = dirs w /\ stdout w' = stdout w /\ umask w' = umask w
    /\ forall p, p <> path -> files w' !! p = files w !! p.
Proof.
  revert w. induction xs as [|x xs IH]; intros w; [by exists w |].
  cbn [for_each]. unfold mbind at 1. unfold M_bind at 1. cbn [write].
  edestruct IH as (w' & -> & Hd & Ho & Hu & Hf).
  exists w'. split; [done |]. rewrite Hd, Ho, Hu. split_and!; try done.
  intros p Hp. rewrite (Hf p Hp). cbn. by rewrite lookup_alter_ne.
Qed.

(** ** Planning and generation *)

Section More.
Context `{PyObjects} `{Dzyswe}.

(** X1.  [compute_jobs] leaves the world as it found it, whatever its
    outcome, and it returns a list of jobs exactly when every identifier is
    in the catalog: the list then has, in the order of the identifiers, the
    job of each identifier (the identifier, its repository path, the base
    commit of its row). *)
Theorem planning_reads_the_catalog_only (args : Namespace) (w : world) :
  (compute_jobs args w).2 = w
  /\ forall jobs,
       (compute_jobs args w).1 = Ok jobs
       <-> Forall2 (fun i j => resolve i = Some j) (instance_ids args) jobs.
Proof.
  split; [apply compute_jobs_loop_world |]. intros jobs. split.
  - destruct (compute_jobs args w) as [r w'] eqn:Hrun. cbn. intros ->.
    by destruct (compute_jobs_inv _ _ _ _ Hrun).
  - intros Hjobs. by rewrite (compute_jobs_ok args jobs w Hjobs).
Qed.

(** X2.  Whatever its outcome, [create_scripts] prints nothing, keeps the
    umask, removes no directory and makes none but the directories of its
    jobs and their parents, leaves every file alone that is not at the
    script path of one of its jobs, and deletes no file. *)
Theorem generation_touches_job_paths_only (args : Namespace)
    (jobs : list job) (w : world) :
  stdout (create_scripts args jobs w).2 = stdout w
  /\ umask (create_scripts args jobs w).2 = umask w
  /\ dirs w ⊆ dirs (create_scripts args jobs w).2
  /\ dirs (create_scripts args jobs w).2 ⊆ job_dirs args jobs ∪ dirs w
  /\ (forall p, p ∉ job_path args <$> jobs ->
        files (create_scripts args jobs w).2 !! p = files w !! p)
  /\ (forall p, is_Some (files w !! p) ->
        is_Some (files (create_scripts args jobs w).2 !! p)).
Proof.
  unfold create_scripts.
  destruct (for_each jobs (create_scripts_body args) [] w) as [r w'] eqn:Hrun.
  destruct (create_scripts_loop _ _ _ _ _ _ Hrun) as (Hout & Hframe & _).
  destruct (create_scripts_loop_frame _ _ _ _ _ _ Hrun)
    as (Hum & Hsub & Hsup & Hkeep & _).
  by split_and!.
Qed.

(** X3.  What a failing first job leaves behind.  When its family is not
    in [INCLUDE], [create_scripts] raises [KeyError] of the family and the
    world is exactly as before: no directory is made.  When the family is
    there and the command template does not format, [create_scripts] raises
    the error of the formatter and the world has changed by the directory
    of the job and its parents, which [os.makedirs] made before the template
    was read, and by nothing else. *)
Theorem failed_job_leftovers (args : Namespace) (j : job) (more : list job)
    (w : world) :
  (INCLUDE !! reponame (instance_id j) = None ->
   create_scripts args (j :: more) w
   = (Err (KeyError (reponame (instance_id j))), w))
  /\ (forall inc e,
        INCLUDE !! reponame (instance_id j) = Some inc ->
        format (job_template args) (job_dict args j inc) = Err e ->
        create_scripts args (j :: more) w
        = (Err e, with_dir (path_join (outdir args) (instance_id j)) w)).
Proof.
  unfold create_scripts. cbn [for_each]. unfold mbind, M_bind.
  rewrite create_scripts_body_run. split.
  - by intros ->.
  - by intros inc e -> ->.
Qed.

(** X4.  With one of the two registered commands, [pylsp] and [jedi],
    generation cannot fail on the template: [create_scripts] returns the
    script paths of its jobs exactly when the family of every job is in
    [INCLUDE]. *)
Theorem registered_command_generation (args : Namespace) (jobs : list job)
    (w : world) :
  command args = "pylsp" \/ command args = "jedi" ->
  (exists w', create_scripts args jobs w = (Ok (job_path args <$> jobs), w'))
  <-> Forall (fun j => is_Some (INCLUDE !! reponame (instance_id j))) jobs.
Proof.
  intros Hc. split.
  - intros [w' Hrun].
    destruct (create_scripts_loop _ _ _ _ _ _ Hrun) as (_ & _ & _ & Hall & _).
    eapply Forall_impl; [exact Hall |]. intros j [cmd Hcmd]. cbn.
    rewrite job_command_eq in Hcmd.
    by destruct (INCLUDE !! reponame (instance_id j)).
  - intros Hall. apply (create_scripts_loop_ok args jobs [] w).
    eapply Forall_impl; [exact Hall |]. intros j Hj.
    by apply registered_commands_render.
Qed.

(** X5.  A command that is a text with its braces doubled, and is not a
    registered name, is embedded in the script as that text: the first
    substitution gives the text back, and generation writes the script of
    the job with it and no other file.  A text without braces is its own
    doubling, so that a command without braces is embedded as it is. *)
Theorem literal_command_is_embedded (args : Namespace) (j : job) (w : world)
    (text inc : string) :
  command args = escape_braces text ->
  DEFAULT_COMMAND_TEMPLATES !! command args = None ->
  INCLUDE !! reponame (instance_id j) = Some inc ->
  job_command args j = Ok text
  /\ (exists w',
        create_scripts args [j] w = (Ok [job_path args j], w')
        /\ files w' = <[ job_path args j := job_script args j text ]> (files w))
  /\ (brace_free text = true -> command args = text).
Proof.
  intros Hc Hreg Hinc.
  assert (job_command args j = Ok text) as Hcmd.
  { rewrite job_command_eq, Hinc. unfold job_template, dict_get.
    rewrite Hreg, Hc. apply format_escape_braces. }
  split_and!; [done | |].
  - eexists. split.
    + unfold create_scripts. cbn [for_each]. unfold mbind, M_bind.
      by rewrite (create_scripts_body_ok _ _ _ _ text).
    + reflexivity.
  - intros Hfree. by rewrite Hc, escape_braces_brace_free.
Qed.

(** X7.  Generation is idempotent: after a run of [create_scripts] that
    returns, a second run over the same jobs returns the same script paths
    and changes nothing in the world. *)
Theorem generation_is_idempotent (args : Namespace) (jobs : list job)
    (w : world) (scripts : list string) (w1 : world) :
  create_scripts args jobs w = (Ok scripts, w1) ->
  create_scripts args jobs w1 = (Ok scripts, w1).
Proof.
  unfold create_scripts. intros Hrun.
  destruct (create_scripts_loop_agree args jobs [] w w1) as [Hres Hagree].
  rewrite Hrun in Hres, Hagree. cbn [fst snd] in Hres, Hagree.
  destruct (for_each jobs (create_scripts_body args) [] w1)
    as [r w2] eqn:Hrun2.
  cbn [fst snd] in Hres, Hagree. subst r. f_equal.
  destruct (create_scripts_loop _ _ _ _ _ _ Hrun2) as (Hout & Hframe & _).
  destruct (create_scripts_loop_frame _ _ _ _ _ _ Hrun)
    as (_ & _ & _ & _ & Hdirs1).
  destruct (create_scripts_loop_frame _ _ _ _ _ _ Hrun2)
    as (Hum & _ & _ & _ & Hdirs2).
  apply world_eq; try done.
  - apply map_eq. intros p.
    destruct (decide (p ∈ job_path args <$> jobs)) as [Hin | Hnotin].
    + symmetry. apply (Hagree scripts p eq_refl). by left.
    + by apply Hframe.
  - rewrite (Hdirs2 scripts eq_refl), (Hdirs1 scripts eq_refl). set_solver.
Qed.

End More.

(** ** Jobs and identifiers *)



Section Composition.
Context `{PyObjects} `{Dzyswe}.








(** X9.  A run that fails writes no aggregate: when the mode is sequential
    or there is at least one identifier and [main] raises, nothing was
    printed and [run_all.sh] is as it was before the run, absent or with
    its old contents. *)
Theorem failed_run_leaves_aggregate_alone (args : Namespace) (w : world)
    (e : exn) (w' : world) :
  parallel args = false \/ instance_ids args <> [] ->
  main args w = (Err e, w') ->
  stdout w' = stdout w
  /\ files w' !! (outdir args +:+ "/run_all.sh")
     = files w !! (outdir args +:+ "/run_all.sh").
Proof.
  intros Hmode. unfold main, mbind, M_bind.
  destruct (compute_jobs args w) as [[jobs|e1] w0] eqn:Hplan.
  2:{ intros [= <- <-].
      pose proof (compute_jobs_loop_world (instance_ids args) [] w) as Hw.
      unfold compute_jobs in Hplan. rewrite Hplan in Hw. cbn in Hw.
      by subst w0. }
  destruct (compute_jobs_inv _ _ _ _ Hplan) as [-> Hjobs].
  destruct (create_scripts args jobs w) as [[scripts|e2] w1] eqn:Hgen.
  - destruct (create_scripts_loop _ _ _ _ _ _ Hgen)
      as (Hout & Hframe & Hs & _).
    cbn [app] in Hs. destruct (dir_exists w1 (outdir args)) eqn:Hdir.
    + destruct (parallel args) eqn:Hpar.
      * destruct Hmode as [? | Hids]; [done |].
        destruct (proj2 (last_is_Some scripts)) as [l Hl].
        { rewrite Hs. intros Hnil%fmap_nil_inv. subst jobs.
          by apply Forall2_nil_inv_r in Hjobs. }
        by rewrite (create_top_script_parallel _ _ l).
      * by rewrite create_top_script_sequential.
    + rewrite create_top_script_missing by done. intros [= <- <-].
      split; [done |]. apply Hframe, job_paths_not_top.
  - intros [= <- <-].
    destruct (create_scripts_loop _ _ _ _ _ _ Hgen) as (Hout & Hframe & _).
    split; [done |]. apply Hframe, job_paths_not_top.
Qed.

End Composition.

(** ** The aggregator at its edges *)

(** X10.  In parallel mode with no script at all and the output directory
    there, the aggregator raises [IndexError] and leaves a fragment behind:
    [run_all.sh] holds the shebang, [set -e], the announcement and the
    words [parallel :::] with an open continuation line; its mode is the
    one it had, or the one the umask gives a new file, since [os.chmod] is
    not reached; nothing is printed. *)
Theorem parallel_aggregate_of_no_script (args : Namespace) (w : world) :
  parallel args = true ->
  dir_exists w (outdir args) = true ->
  exists w',
    create_top_script args [] w = (Err IndexError, w')
    /\ files w' !! (outdir args +:+ "/run_all.sh")
       = Some {| content := unlines [ "#!/bin/bash"; "set -e";
                                      "echo Executing in parallel mode..." ]
                            +:+ "parallel ::: \" +:+ nl;
                 mode := match files w !! (outdir args +:+ "/run_all.sh") with
                         | Some f => mode f
                         | None => Z.land 438 (Z.lnot (umask w))
                         end |}
    /\ stdout w' = stdout w.
Proof.
  intros Hpar Hdir. eexists.
  split; [by apply create_top_script_parallel_nil |].
  unfold install. cbn [set_files files stdout].
  by rewrite lookup_insert_eq.
Qed.

(** X11.  Whatever its mode, its list and its outcome, the aggregator
    touches one file: it makes and removes no directory, keeps the umask,
    and leaves every file but [outdir/run_all.sh] as it was. *)
Theorem aggregator_touches_run_all_only (args : Namespace)
    (scripts : list string) (w : world) :
  dirs (create_top_script args scripts w).2 = dirs w
  /\ umask (create_top_script args scripts w).2 = umask w
  /\ forall p, p <> outdir args +:+ "/run_all.sh" ->
       files (create_top_script args scripts w).2 !! p = files w !! p.
Proof.
  destruct (dir_exists w (outdir args)) eqn:Hdir.
  2:{ by rewrite create_top_script_missing. }
  destruct (parallel args) eqn:Hpar.
  - destruct (last scripts) as [l|] eqn:Hl.
    + rewrite (create_top_script_parallel _ _ l) by done.
      unfold with_top_script. cbn. split_and!; try done.
      intros p Hp. by rewrite lookup_insert_ne.
    + apply last_None in Hl as ->.
      rewrite create_top_script_parallel_nil by done.
      unfold install. cbn. split_and!; try done.
      intros p Hp. by rewrite lookup_insert_ne.
  - rewrite create_top_script_sequential by done.
    unfold with_top_script. cbn. split_and!; try done.
    intros p Hp. by rewrite lookup_insert_ne.
Qed.

(** * Runs on the example catalog *)

(** C1, as the claim states it, fails.  Both identifiers are in the
    catalog, the family [bar] of the second is not in [INCLUDE]: [main]
    raises [KeyError], and the script of the first job, which was not there
    before, is on disk with its directory. *)
Lemma include_lookup_after_first_script :
  is_Some (@sweall sample_dzyswe !! "pallets__flask-4045")
  /\ is_Some (@sweall sample_dzyswe !! "foo__bar-123")
  /\ INCLUDE !! (@reponame sample_dzyswe "foo__bar-123") = None
  /\ files empty_world !! "sweout/pallets__flask-4045/main.sh" = None
  /\ (@main str_objects sample_dzyswe
        (sample_args ["pallets__flask-4045"; "foo__bar-123"] "jedi" false)
        empty_world).1 = Err (KeyError "bar")
  /\ is_Some
       (files (@main str_objects sample_dzyswe
                 (sample_args ["pallets__flask-4045"; "foo__bar-123"] "jedi"
                    false)
                 empty_world).2
        !! "sweout/pallets__flask-4045/main.sh")
  /\ "sweout/pallets__flask-4045"
     ∈ dirs (@main str_objects sample_dzyswe
               (sample_args ["pallets__flask-4045"; "foo__bar-123"] "jedi"
                  false)
               empty_world).2.
Proof.
  split_and!.
  - eexists. vm_compute. reflexivity.
  - eexists. vm_compute. reflexivity.
  - vm_compute. reflexivity.
  - vm_compute. reflexivity.
  - vm_compute. reflexivity.
  - eexists. vm_compute. reflexivity.
  - refine (bool_decide_unpack _ _). vm_compute. reflexivity.
Qed.

(** C3, as the claim states it, fails.  Both templates reference
    [branch], which is not a key of the dictionary.  With [{} {branch}]
    generation fails with [IndexError], at the field without a name, and
    with [{commit!x} {branch}] it fails with [ValueError], at the unknown
    conversion: the field [branch] is not reached, and neither error names
    the placeholder. *)
Lemma placeholder_error_of_an_earlier_field :
  ("branch" ∉ format_keys)
  /\ references
       (@job_template
          (sample_args ["pallets__flask-4045"] "{} {branch}" false)) "branch"
  /\ (@create_scripts str_objects sample_dzyswe
        (sample_args ["pallets__flask-4045"] "{} {branch}" false)
        [flask_job] empty_world).1 = Err IndexError
  /\ references
       (@job_template
          (sample_args ["pallets__flask-4045"] "{commit!x} {branch}" false))
       "branch"
  /\ (@create_scripts str_objects sample_dzyswe
        (sample_args ["pallets__flask-4045"] "{commit!x} {branch}" false)
        [flask_job] empty_world).1 = Err ValueError.
Proof.
  split_and!.
  - refine (bool_decide_unpack _ _). vm_compute. reflexivity.
  - apply (references_field _ "branch" no_conversion "" false).
    change (Field "branch" no_conversion "" false
            ∈ [Field "" no_conversion "" false; Literal " ";
               Field "branch" no_conversion "" false]).
    do 2 apply list_elem_of_further. apply list_elem_of_here.
  - vm_compute. reflexivity.
  - apply (references_field _ "branch" no_conversion "" false).
    change (Field "branch" no_conversion "" false
            ∈ [Field "commit" "x"%char "" false; Literal " ";
               Field "branch" no_conversion "" false]).
    do 2 apply list_elem_of_further. apply list_elem_of_here.
  - vm_compute. reflexivity.
Qed.

(** The formatter on a few templates, with the dictionary of the first
    job. *)
Example format_plain :
  @format str_objects "git checkout {commit}"
    (job_dict (sample_args [] "jedi" false) flask_job "src")
  = Ok "git checkout d8c37f4".
Proof. vm_compute. reflexivity. Qed.

Example format_escaped_braces :
  @format str_objects "echo {{commit}} {commit}"
    (job_dict (sample_args [] "jedi" false) flask_job "src")
  = Ok "echo {commit} d8c37f4".
Proof. vm_compute. reflexivity. Qed.

Example format_missing_key :
  @format str_objects "echo {commit} {branch} }"
    (job_dict (sample_args [] "jedi" false) flask_job "src")
  = Err (KeyError "branch").
Proof. vm_compute. reflexivity. Qed.

Example format_single_brace :
  @format str_objects "echo } {branch}"
    (job_dict (sample_args [] "jedi" false) flask_job "src")
  = Err ValueError.
Proof. vm_compute. reflexivity. Qed.

Example format_nested_specification :
  @format str_objects "{commit:{branch}}"
    (job_dict (sample_args [] "jedi" false) flask_job "src")
  = Err (KeyError "branch")
  /\ @format str_objects "{commit:{outdir:{commit}}}"
       (job_dict (sample_args [] "jedi" false) flask_job "src")
     = Err ValueError
  /\ @format str_objects "{commit!x:{branch}}"
       (job_dict (sample_args [] "jedi" false) flask_job "src")
     = Err ValueError.
Proof. by vm_compute. Qed.

Example markup_iter_cases :
  markup_iter "a{x}b{{c}}{y!r:>{w}}"
  = [Literal "a"; Field "x" no_conversion "" false; Literal "b{c}";
     Field "y" "r" ">{w}" true]
  /\ markup_iter "{a[}]}{" = [Field "a[}]" no_conversion "" false; Invalid]
  /\ markup_iter "{commit}}" = [Field "commit" no_conversion "" false; Invalid]
  /\ markup_iter "{commit!s" = [Invalid].
Proof. by vm_compute. Qed.

Example format_positional :
  @format str_objects "echo {} {0}"
    (job_dict (sample_args [] "jedi" false) flask_job "src")
  = Err IndexError.
Proof. vm_compute. reflexivity. Qed.

Example format_command_not_yet_a_key :
  @format str_objects "{command}"
    (job_dict (sample_args [] "jedi" false) flask_job "src")
  = Err (KeyError "command").
Proof. vm_compute. reflexivity. Qed.

(** A field name of decimal digits is a position, in any script: [{٣}],
    the Arabic-Indic digit three (bytes D9 A3), is the fourth positional
    argument, and there is none. *)
Example format_unicode_digit :
  code_points (String (ascii_of_nat 217) (String (ascii_of_nat 163) ""))
  = [1635]
  /\ @named str_objects
       (String (ascii_of_nat 217) (String (ascii_of_nat 163) "")) = false
  /\ @format str_objects
       ("{" +:+ String (ascii_of_nat 217) (String (ascii_of_nat 163) "")
        +:+ "}")
       (job_dict (sample_args [] "jedi" false) flask_job "src")
     = Err IndexError.
Proof. by vm_compute. Qed.

(** The conversion after ['!'] is one code point.  With [!é] (bytes C3
    A9) the markup is well formed: the field is looked up first, and the
    conversion is refused after that. *)
Example format_conversion_code_point :
  markup_iter ("{branch!" +:+ String (ascii_of_nat 195)
                 (String (ascii_of_nat 169) "") +:+ "}")
  = [Field "branch" (ascii_of_nat 195) "" false]
  /\ @format str_objects
       ("{branch!" +:+ String (ascii_of_nat 195)
          (String (ascii_of_nat 169) "") +:+ "}")
       (job_dict (sample_args [] "jedi" false) flask_job "src")
     = Err (KeyError "branch")
  /\ @format str_objects
       ("{commit!" +:+ String (ascii_of_nat 195)
          (String (ascii_of_nat 169) "") +:+ "}")
       (job_dict (sample_args [] "jedi" false) flask_job "src")
     = Err ValueError
  /\ @format str_objects
       ("{commit!" +:+ String (ascii_of_nat 195)
          (String (ascii_of_nat 169) "") +:+ ":>9} {branch}")
       (job_dict (sample_args [] "jedi" false) flask_job "src")
     = Err ValueError.
Proof. by vm_compute. Qed.

(** [os.makedirs] makes the parents too, and [open] wants the directory of
    the file. *)
Example makedirs_parents :
  leading_dirs "" "sweout/pallets__flask-4045"
  = ["sweout"; "sweout/pallets__flask-4045"]
  /\ leading_dirs "" "/tmp//out/x/" = ["/tmp"; "/tmp//out"; "/tmp//out/x"]
  /\ dirname "sweout/run_all.sh" = "sweout"
  /\ dirname "/run_all.sh" = "/"
  /\ dirname "sweout//a/main.sh" = "sweout//a".
Proof. by vm_compute. Qed.

Example aggregate_without_directory :
  create_top_script (sample_args ["x"] "jedi" false) ["A"; "B"; "C"]
    empty_world
  = (Err (FileNotFoundError "sweout/run_all.sh"), empty_world)
  /\ @main str_objects sample_dzyswe (sample_args [] "jedi" false) empty_world
     = (Err (FileNotFoundError "sweout/run_all.sh"), empty_world)
  /\ (@main str_objects sample_dzyswe
        (sample_args ["pallets__flask-4045"] "jedi" false) empty_world).1
     = Ok tt.
Proof. by vm_compute. Qed.

Example path_join_cases :
  path_join "sweout" "a" = "sweout/a" /\ path_join "sweout/" "a" = "sweout/a"
  /\ path_join "" "a" = "a" /\ path_join "sweout" "/a" = "/a".
Proof. by vm_compute. Qed.

(** C1, first part: an identifier that is not in the catalog; second part:
    a family that is not in [INCLUDE], between two jobs that are fine. *)
Lemma resolution_errors_sample :
  @main str_objects sample_dzyswe
    (sample_args ["pallets__flask-4045"; "nobody__nothing-1"] "jedi" false)
    empty_world
  = (Err (KeyError "nobody__nothing-1"), empty_world)
  /\ @main str_objects sample_dzyswe
       (sample_args ["pallets__flask-4045"; "foo__bar-123";
                     "psf__requests-2317"] "jedi" false)
       empty_world
     = match @create_scripts str_objects sample_dzyswe
               (sample_args ["pallets__flask-4045"; "foo__bar-123";
                             "psf__requests-2317"] "jedi" false)
               [flask_job] empty_world with
       | (Ok _, w1) => (Err (KeyError "bar"), w1)
       | (Err e, w1) => (Err e, w1)
       end.
Proof.
  split.
  - apply (proj1 (@resolution_errors str_objects sample_dzyswe
                    (sample_args ["pallets__flask-4045"; "nobody__nothing-1"]
                       "jedi" false) empty_world)
             ["pallets__flask-4045"] "nobody__nothing-1" []).
    + reflexivity.
    + apply List.Forall_cons; [| apply List.Forall_nil].
      eexists. vm_compute. reflexivity.
    + vm_compute. reflexivity.
  - apply (proj2 (@resolution_errors str_objects sample_dzyswe
                    (sample_args ["pallets__flask-4045"; "foo__bar-123";
                                  "psf__requests-2317"] "jedi" false)
                    empty_world)
             [flask_job; bar_job; requests_job] [flask_job] bar_job
             [requests_job]).
    + repeat (apply List.Forall2_cons; [vm_compute; reflexivity |]).
      apply List.Forall2_nil.
    + reflexivity.
    + vm_compute. reflexivity.
Defined.

Lemma two_phase_substitution_sample :
  exists w' f,
    @create_scripts str_objects sample_dzyswe
      (sample_args ["pallets__flask-4045"] "echo {commit} of {repo_path}" false)
      [flask_job] empty_world
    = (Ok ["sweout/pallets__flask-4045/main.sh"], w')
    /\ files w' !! "sweout/pallets__flask-4045/main.sh" = Some f
    /\ content f
       = unlines (script_lines "sweout" "pallets__flask-4045"
                    "/data/repos/pallets__flask-4045" "d8c37f4"
                    "echo d8c37f4 of /data/repos/pallets__flask-4045").
Proof.
  destruct (@two_phase_substitution str_objects sample_dzyswe
              (sample_args ["pallets__flask-4045"]
                 "echo {commit} of {repo_path}" false)
              flask_job empty_world "src"
              "echo d8c37f4 of /data/repos/pallets__flask-4045")
    as [(w' & f & Hrun & Hfile & _ & Htext) _].
  - vm_compute. reflexivity.
  - vm_compute. reflexivity.
  - exists w', f. split; [exact Hrun |]. split; [exact Hfile | exact Htext].
Defined.

Lemma unresolvable_placeholder_sample :
  exists w',
    @create_scripts str_objects sample_dzyswe
      (sample_args ["pallets__flask-4045"] "echo {commit} {branch}" false)
      [flask_job; requests_job] empty_world
    = (Err (KeyError "branch"), w')
    /\ files w' = files empty_world.
Proof.
  destruct (@unresolvable_placeholder str_objects sample_dzyswe
              (sample_args ["pallets__flask-4045"] "echo {commit} {branch}"
                 false)
              flask_job [requests_job] empty_world "branch")
    as (e & w' & Hrun & Hfiles & Herr).
  - apply (references_field _ "branch" no_conversion "" false).
    change (Field "branch" no_conversion "" false
            ∈ [Literal "echo "; Field "commit" no_conversion "" false;
               Literal " "; Field "branch" no_conversion "" false]).
    do 3 apply list_elem_of_further. apply list_elem_of_here.
  - refine (bool_decide_unpack _ _). vm_compute. reflexivity.
  - exists w'. split; [| exact Hfiles].
    rewrite Hrun. f_equal. f_equal.
    apply (Herr "src" [Literal "echo "; Field "commit" no_conversion "" false;
                       Literal " "]
             "branch" no_conversion "" false [] "echo d8c37f4 ");
      vm_compute; reflexivity.
Defined.

(** C4 on the registered name [jedi] and on a string that is no registered
    name. *)
Lemma template_registry_falls_through_sample :
  (exists w',
     @create_scripts str_objects sample_dzyswe
       (sample_args ["pallets__flask-4045"] "jedi" false) [flask_job]
       empty_world
     = (Ok ["sweout/pallets__flask-4045/main.sh"], w')
     /\ files w' !! "sweout/pallets__flask-4045/main.sh"
        = Some (@job_script
                  (sample_args ["pallets__flask-4045"] "jedi" false) flask_job
                  "./abcoder parse python /data/repos/pallets__flask-4045 -verbose -o sweout/pallets__flask-4045.json -include src -lsp-cache-path sweout/pallets__flask-4045/lsp_cache.json -lsp jedi-language-server -lsp-flags '--log-file sweout/pallets__flask-4045/lsp.log -v'"))
  /\ (exists w',
        @create_scripts str_objects sample_dzyswe
          (sample_args ["pallets__flask-4045"] "pyright --stats" false)
          [flask_job] empty_world
        = (Ok ["sweout/pallets__flask-4045/main.sh"], w')
        /\ files w' !! "sweout/pallets__flask-4045/main.sh"
           = Some (@job_script
                     (sample_args ["pallets__flask-4045"] "pyright --stats"
                        false)
                     flask_job "pyright --stats")).
Proof.
  split.
  - exact (@template_registry_falls_through str_objects sample_dzyswe
             (sample_args ["pallets__flask-4045"] "jedi" false) flask_job
             empty_world "src" ltac:(vm_compute; reflexivity)).
  - exact (@template_registry_falls_through str_objects sample_dzyswe
             (sample_args ["pallets__flask-4045"] "pyright --stats" false)
             flask_job empty_world "src" ltac:(vm_compute; reflexivity)).
Defined.

Lemma isolation_script_text_sample :
  exists f,
    files (@create_scripts str_objects sample_dzyswe
             (sample_args ["pallets__flask-4045"] "pylsp" false)
             [flask_job] stale_world).2
    !! "sweout/pallets__flask-4045/main.sh" = Some f
    /\ exists cmd,
        content f
        = unlines (script_lines "sweout" "pallets__flask-4045"
                     "/data/repos/pallets__flask-4045" "d8c37f4" cmd).
Proof.
  destruct (@isolation_script_text str_objects sample_dzyswe
              (sample_args ["pallets__flask-4045"] "pylsp" false)
              [flask_job] stale_world
              ["sweout/pallets__flask-4045/main.sh"]
              (@create_scripts str_objects sample_dzyswe
                 (sample_args ["pallets__flask-4045"] "pylsp" false)
                 [flask_job] stale_world).2)
    with (p := "sweout/pallets__flask-4045/main.sh")
    as (j & cmd & f & Hj & _ & _ & Hf & Htext).
  - vm_compute. reflexivity.
  - apply list_elem_of_here.
  - apply list_elem_of_singleton in Hj. subst j.
    exists f. split; [exact Hf |]. exists cmd. exact Htext.
Defined.

Lemma one_script_per_identifier_sample :
  exists jobs scripts w',
    @compute_jobs sample_dzyswe
      (sample_args ["pallets__flask-4045"; "psf__requests-2317";
                    "pallets__flask-4045"] "jedi" false) empty_world
    = (Ok jobs, empty_world)
    /\ @create_scripts str_objects sample_dzyswe
         (sample_args ["pallets__flask-4045"; "psf__requests-2317";
                       "pallets__flask-4045"] "jedi" false) jobs empty_world
       = (Ok scripts, w')
    /\ scripts = [ "sweout/pallets__flask-4045/main.sh";
                   "sweout/psf__requests-2317/main.sh";
                   "sweout/pallets__flask-4045/main.sh" ].
Proof.
  destruct (@one_script_per_identifier str_objects sample_dzyswe
              (sample_args ["pallets__flask-4045"; "psf__requests-2317";
                            "pallets__flask-4045"] "jedi" false) empty_world)
    as (jobs & scripts & w' & Hplan & Hgen & Hscripts & _).
  - intros i Hi. apply list_elem_of_In in Hi. cbn in Hi.
    destruct Hi as [<- | [<- | [<- | []]]];
      eexists _, _; (split; [vm_compute; reflexivity |]);
      vm_compute; reflexivity.
  - exists jobs, scripts, w'. split; [exact Hplan |]. split; [exact Hgen |].
    exact Hscripts.
Defined.

Lemma sequential_aggregate_script_sample :
  exists w',
    create_top_script (sample_args ["x"] "jedi" false) ["A"; "B"; "C"]
      stale_world = (Ok tt, w')
    /\ files w' !! "sweout/run_all.sh"
       = Some {| content := unlines ["#!/bin/bash"; "set -e";
                                     "./A"; "./B"; "./C"];
                 mode := rwxr_xr_x |}.
Proof.
  destruct (sequential_aggregate_script (sample_args ["x"] "jedi" false)
              ["A"; "B"; "C"] stale_world eq_refl)
    as [Hreturns Hscript].
  destruct Hreturns as [w' Hrun]; [vm_compute; reflexivity |].
  exists w'. split; [exact Hrun | exact (proj1 (Hscript w' Hrun))].
Defined.

Lemma parallel_aggregate_script_sample :
  exists w',
    create_top_script (sample_args ["x"] "jedi" true) ["A"; "B"; "C"]
      stale_world = (Ok tt, w')
    /\ files w' !! "sweout/run_all.sh"
       = Some {| content :=
                   unlines ["#!/bin/bash"; "set -e";
                            "echo Executing in parallel mode...";
                            "parallel ::: \" +:+ nl +:+ "./A \" +:+ nl
                              +:+ "./B \" +:+ nl +:+ "./C"];
                 mode := rwxr_xr_x |}.
Proof.
  destruct (parallel_aggregate_script (sample_args ["x"] "jedi" true)
              ["A"; "B"; "C"] stale_world eq_refl ltac:(discriminate))
    as [Hreturns Hscript].
  destruct Hreturns as [w' Hrun]; [vm_compute; reflexivity |].
  exists w'. split; [exact Hrun | exact (proj1 (Hscript w' Hrun))].
Defined.

Lemma generation_is_deterministic_sample :
  files (@create_scripts str_objects sample_dzyswe
           (sample_args ["pallets__flask-4045"] "jedi" false)
           [flask_job] empty_world).2
    !! "sweout/pallets__flask-4045/main.sh"
  = files (@create_scripts str_objects sample_dzyswe
             (sample_args [] "jedi" true) [flask_job] stale_world).2
      !! "sweout/pallets__flask-4045/main.sh".
Proof.
  apply (proj2 (@generation_is_deterministic str_objects sample_dzyswe
                  (sample_args ["pallets__flask-4045"] "jedi" false)
                  (sample_args [] "jedi" true) [flask_job]
                  empty_world stale_world eq_refl eq_refl)
           ["sweout/pallets__flask-4045/main.sh"]).
  - vm_compute. reflexivity.
  - apply list_elem_of_here.
Defined.


(** ** Runs for the further properties *)

Lemma failed_job_leftovers_sample :
  @create_scripts str_objects sample_dzyswe
    (sample_args ["foo__bar-123"] "jedi" false) [bar_job; flask_job]
    empty_world
  = (Err (KeyError "bar"), empty_world)
  /\ @create_scripts str_objects sample_dzyswe
       (sample_args ["pallets__flask-4045"] "echo {branch}" false)
       [flask_job; requests_job] empty_world
     = (Err (KeyError "branch"),
        {| files := ∅;
           dirs := list_to_set ["sweout"; "sweout/pallets__flask-4045"] ∪ ∅;
           stdout := []; umask := 18 |}).
Proof.
  split.
  - apply (proj1 (@failed_job_leftovers str_objects sample_dzyswe
                    (sample_args ["foo__bar-123"] "jedi" false)
                    bar_job [flask_job] empty_world)).
    vm_compute. reflexivity.
  - apply (proj2 (@failed_job_leftovers str_objects sample_dzyswe
                    (sample_args ["pallets__flask-4045"] "echo {branch}" false)
                    flask_job [requests_job] empty_world)
             "src" (KeyError "branch")).
    + vm_compute. reflexivity.
    + vm_compute. reflexivity.
Defined.

Lemma registered_command_generation_sample :
  exists w',
    @create_scripts str_objects sample_dzyswe
      (sample_args [] "pylsp" false) [flask_job; requests_job] stale_world
    = (Ok [ "sweout/pallets__flask-4045/main.sh";
            "sweout/psf__requests-2317/main.sh" ], w').
Proof.
  apply (proj2 (@registered_command_generation str_objects sample_dzyswe
                  (sample_args [] "pylsp" false) [flask_job; requests_job]
                  stale_world (or_introl eq_refl))).
  apply List.Forall_cons; [eexists; vm_compute; reflexivity |].
  apply List.Forall_cons; [eexists; vm_compute; reflexivity |].
  apply List.Forall_nil.
Defined.

Lemma literal_command_is_embedded_sample :
  @job_command str_objects sample_dzyswe
    (sample_args [] "awk '{{print $1}}' log.txt" false) flask_job
  = Ok "awk '{print $1}' log.txt"
  /\ exists w',
       @create_scripts str_objects sample_dzyswe
         (sample_args [] "awk '{{print $1}}' log.txt" false) [flask_job]
         stale_world
       = (Ok ["sweout/pallets__flask-4045/main.sh"], w')
       /\ files w'
          = <[ "sweout/pallets__flask-4045/main.sh"
               := @job_script
                    (sample_args [] "awk '{{print $1}}' log.txt" false)
                    flask_job "awk '{print $1}' log.txt" ]>
              (files stale_world).
Proof.
  destruct (@literal_command_is_embedded str_objects sample_dzyswe
              (sample_args [] "awk '{{print $1}}' log.txt" false)
              flask_job stale_world "awk '{print $1}' log.txt" "src"
              eq_refl ltac:(vm_compute; reflexivity)
              ltac:(vm_compute; reflexivity))
    as (Hcmd & Hrun & _).
  split; [exact Hcmd | exact Hrun].
Defined.


Lemma generation_is_idempotent_sample :
  @create_scripts str_objects sample_dzyswe (sample_args [] "jedi" false)
    [flask_job; requests_job; flask_job]
    (@create_scripts str_objects sample_dzyswe (sample_args [] "jedi" false)
       [flask_job; requests_job; flask_job] stale_world).2
  = (Ok [ "sweout/pallets__flask-4045/main.sh";
          "sweout/psf__requests-2317/main.sh";
          "sweout/pallets__flask-4045/main.sh" ],
     (@create_scripts str_objects sample_dzyswe (sample_args [] "jedi" false)
        [flask_job; requests_job; flask_job] stale_world).2).
Proof.
  apply (@generation_is_idempotent str_objects sample_dzyswe
           (sample_args [] "jedi" false) [flask_job; requests_job; flask_job]
           stale_world).
  vm_compute. reflexivity.
Defined.


Lemma failed_run_leaves_aggregate_alone_sample :
  stdout (@main str_objects sample_dzyswe
            (sample_args ["pallets__flask-4045"; "foo__bar-123"] "jedi" true)
            stale_world).2 = []
  /\ files (@main str_objects sample_dzyswe
              (sample_args ["pallets__flask-4045"; "foo__bar-123"] "jedi" true)
              stale_world).2 !! "sweout/run_all.sh" = None.
Proof.
  apply (@failed_run_leaves_aggregate_alone str_objects sample_dzyswe
           (sample_args ["pallets__flask-4045"; "foo__bar-123"] "jedi" true)
           stale_world (KeyError "bar")).
  - right. discriminate.
  - vm_compute. reflexivity.
Defined.

Lemma parallel_aggregate_of_no_script_sample :
  exists w',
    create_top_script (sample_args [] "jedi" true) [] stale_world
    = (Err IndexError, w')
    /\ files w' !! "sweout/run_all.sh"
       = Some {| content := unlines [ "#!/bin/bash"; "set -e";
                                      "echo Executing in parallel mode..." ]
                            +:+ "parallel ::: \" +:+ nl;
                 mode := 438 |}.
Proof.
  destruct (parallel_aggregate_of_no_script (sample_args [] "jedi" true)
              stale_world eq_refl ltac:(vm_compute; reflexivity))
    as (w' & Hrun & Hfile & _).
  exists w'. split; [exact Hrun | exact Hfile].
Defined.
